(** * bc4: token lifecycle and paginated API client

    A shallow embedding of the two classes of [bc4.py] that carry the
    program's logic, [BasecampAPI] and [BasecampAuth], and the properties
    of the token lifecycle and of the pagination loop proved about it.

    Conventions of the embedding.
    - Python values that come from JSON are terms of [json]; [None] is
      [JNull].  JSON numbers are the integers: a number with a fraction or
      an exponent (a Python [float]) is outside the model.
    - A Python [str] is a [string] whose characters are code points below
      256.
    - A [dict] is an association list in insertion order with distinct keys.
    - Effects are explicit: a computation maps a [world] to an outcome and
      a new [world].  The world holds what the environment will answer
      (clock readings, HTTP outcomes, typed lines, disk status), the token
      file and the trace of effects performed so far.
    - Console output ([print]) is presentation only and is not recorded. *)

From Stdlib Require Import ZArith List String Ascii Bool Lia.
Import ListNotations.
Open Scope string_scope.
Open Scope Z_scope.

Set Warnings "-register-all".

(** ** Python strings *)

Module PyStr.

(** The double quote, built from its code so that no literal needs it. *)
Definition dquote : ascii := ascii_of_nat 34.

(** [str.isspace] on the code points below 256. *)
Definition isspace (c : ascii) : bool :=
  let n := nat_of_ascii c in
  ((9 <=? n) && (n <=? 13) || (28 <=? n) && (n <=? 32)
   || (n =? 133) || (n =? 160))%nat.

Fixpoint lstrip (s : string) : string :=
  match s with
  | EmptyString => EmptyString
  | String c s' => if isspace c then lstrip s' else s
  end.

(** [rstrip] returns the empty string when everything after this point
    is white space. *)
Fixpoint rstrip (s : string) : string :=
  match s with
  | EmptyString => EmptyString
  | String c s' =>
      match rstrip s' with
      | EmptyString => if isspace c then EmptyString else String c EmptyString
      | r => String c r
      end
  end.

(** [s.strip()] *)
Definition strip (s : string) : string := rstrip (lstrip s).

(** [sub in s] for strings. *)
Fixpoint contains (sub s : string) : bool :=
  if prefix sub s then true
  else match s with
       | EmptyString => false
       | String _ s' => contains sub s'
       end.

(** [s.split(sep)] for a non-empty [sep]: scan left to right; [skip]
    counts the characters of a matched separator still to be dropped and
    [cur] is the piece being built. *)
Fixpoint split_go (sep s : string) (skip : nat) (cur : string) : list string :=
  match s with
  | EmptyString => [cur]
  | String c s' =>
      match skip with
      | S k => split_go sep s' k cur
      | O =>
          if prefix sep s
          then cur :: split_go sep s' (String.length sep - 1) EmptyString
          else split_go sep s' 0 (cur ++ String c EmptyString)
      end
  end.

Definition split (sep s : string) : list string := split_go sep s 0 EmptyString.

End PyStr.

(** ** JSON values and Python's operations on them *)

Inductive json : Type :=
| JNull
| JBool (b : bool)
| JInt (z : Z)
| JStr (s : string)
| JArr (items : list json)
| JObj (fields : list (string * json)).

Definition dict := list (string * json).

(** Exceptions the modelled code can raise.  All of them derive from
    Python's [Exception]. *)
Inductive exn : Type :=
| ValueError (msg : string)
| KeyError (key : string)
| TypeError
| AttributeError
| HTTPError (status : Z)
| ConnectionError
| JSONDecodeError
| OSError
| EOFError.

Inductive result (A : Type) : Type :=
| Ok (a : A)
| Raise (e : exn).
Arguments Ok {A} a.
Arguments Raise {A} e.

Module Dict.

Fixpoint get (k : string) (d : dict) : option json :=
  match d with
  | [] => None
  | (k', v) :: d' => if String.eqb k k' then Some v else get k d'
  end.

(** [d[k] = v]: overwrite in place, or append a new key. *)
Fixpoint set (k : string) (v : json) (d : dict) : dict :=
  match d with
  | [] => [(k, v)]
  | (k', v') :: d' =>
      if String.eqb k k' then (k', v) :: d' else (k', v') :: set k v d'
  end.

Definition mem (k : string) (d : dict) : bool :=
  match get k d with Some _ => true | None => false end.

End Dict.

Module Py.

(** Truth value of an object, as [not x] and [if x] test it. *)
Definition truthy (x : json) : bool :=
  match x with
  | JNull => false
  | JBool b => b
  | JInt z => negb (z =? 0)
  | JStr s => negb (String.eqb s EmptyString)
  | JArr l => match l with [] => false | _ => true end
  | JObj d => match d with [] => false | _ => true end
  end.

Definition is_str (s : string) (x : json) : bool :=
  match x with JStr t => String.eqb t s | _ => false end.

(** [k in x] for a string [k]. *)
Definition contains (k : string) (x : json) : result bool :=
  match x with
  | JObj d => Ok (Dict.mem k d)
  | JArr l => Ok (existsb (is_str k) l)
  | JStr s => Ok (PyStr.contains k s)
  | _ => Raise TypeError
  end.

(** [x[k]] for a string [k]. *)
Definition getitem (x : json) (k : string) : result json :=
  match x with
  | JObj d => match Dict.get k d with
              | Some v => Ok v
              | None => Raise (KeyError k)
              end
  | _ => Raise TypeError
  end.

(** [x[k] = v] for a string [k]. *)
Definition setitem (x : json) (k : string) (v : json) : result json :=
  match x with
  | JObj d => Ok (JObj (Dict.set k v d))
  | _ => Raise TypeError
  end.

(** [x.get(k, default)] *)
Definition get (x : json) (k : string) (default : json) : result json :=
  match x with
  | JObj d => match Dict.get k d with
              | Some v => Ok v
              | None => Ok default
              end
  | _ => Raise AttributeError
  end.

(** The integer an object stands for in arithmetic; [bool] is a subclass
    of [int]. *)
Definition as_int (x : json) : result Z :=
  match x with
  | JInt z => Ok z
  | JBool b => Ok (Z.b2z b)
  | _ => Raise TypeError
  end.

(** The items a [for] loop or [list.extend] draws from an object. *)
Definition iter (x : json) : result (list json) :=
  match x with
  | JArr l => Ok l
  | JObj d => Ok (map (fun kv => JStr (fst kv)) d)
  | JStr s => Ok (map (fun c => JStr (String c EmptyString)) (list_ascii_of_string s))
  | _ => Raise TypeError
  end.

End Py.

(** Sequencing of operations that may raise, without effects. *)
Definition rbind {A B} (r : result A) (k : A -> result B) : result B :=
  match r with
  | Ok a => k a
  | Raise e => Raise e
  end.

Notation "'let?' x ':=' r 'in' k" := (rbind r (fun x => k))
  (at level 10, x name, r at level 100, k at level 200).

(** ** The environment *)

(** The text an f-string produces, kept as its pieces: the interpolated
    values are not rendered. *)
Inductive piece : Type :=
| Lit (s : string)
| Fmt (v : json).

Definition fstring := list piece.

Inductive method : Type := GET | POST.

(** The headers every API call sends.  [Content-Type] and [User-Agent] are
    the constants ['application/json'] and ['Basecamp4 CLI Tool']. *)
Record headers_t : Type := mkHeaders { authorization : fstring }.

Inductive payload : Type :=
| NoBody
| FormData (fields : list (string * json))
| JsonBody (fields : list (string * json)).

Record request : Type := mkRequest {
  meth : method;
  url : fstring;
  hdrs : option headers_t;
  body : payload
}.

(** What the code reads of a response: the status, the [Link] header and
    the decoded body ([None] when the body is not JSON). *)
Record response : Type := mkResponse {
  status_code : Z;
  link : option string;
  content : option json
}.

(** [requests.get] and [requests.post] either raise or return a response. *)
Inductive outcome : Type :=
| NetFail
| NetResp (r : response).

Inductive event : Type :=
| EvTime (t : Z)
| EvHttp (rq : request) (out : outcome)
| EvSleep
| EvBrowser (params : list (string * string))
| EvInput (line : option string)
| EvSave (tok : json) (ok : bool).

(** Where a write of the token file that fails does so: at
    [os.makedirs], at [open(TOKEN_FILE, 'w')], inside [json.dump] once
    the file has been truncated, or at [os.chmod] once it has been
    written and closed. *)
Inductive save_fault : Type :=
| AtMakedirs
| AtOpen
| AtWrite
| AtChmod.

(** The answers the environment has in store are streams, consumed from
    index 0: [disk] tells whether a write of the token file goes through
    and [fault] where one that does not fails.  [token_file] is the
    decoded content of [TOKEN_FILE], [None] when the file is missing,
    unreadable or malformed. *)
Record world : Type := mkWorld {
  clock : nat -> Z;
  net : nat -> outcome;
  stdin : nat -> option string;
  disk : nat -> bool;
  fault : nat -> save_fault;
  token_file : option json;
  trace : list event
}.

Definition behead {A} (f : nat -> A) : nat -> A := fun n => f (S n).

Definition M (A : Type) : Type := world -> result A * world.

Definition ret {A} (a : A) : M A := fun w => (Ok a, w).

Definition raise {A} (e : exn) : M A := fun w => (Raise e, w).

Definition bind {A B} (m : M A) (k : A -> M B) : M B :=
  fun w => match m w with
           | (Ok a, w') => k a w'
           | (Raise e, w') => (Raise e, w')
           end.

Definition lift {A} (r : result A) : M A := fun w => (r, w).

(** [try: m  except Exception: h] *)
Definition try_except {A} (m : M A) (h : exn -> M A) : M A :=
  fun w => match m w with
           | (Ok a, w') => (Ok a, w')
           | (Raise e, w') => h e w'
           end.

Notation "x <- m ;; k" := (bind m (fun x => k))
  (at level 100, m at next level, right associativity).
Notation "m ;;; k" := (bind m (fun _ => k))
  (at level 100, right associativity).

(** [int(time.time())] *)
Definition time_now : M Z := fun w =>
  let t := clock w 0%nat in
  (Ok t, mkWorld (behead (clock w)) (net w) (stdin w) (disk w) (fault w)
                 (token_file w)
                 (trace w ++ [EvTime t])).

(** [requests.get(...)] and [requests.post(...)] *)
Definition send (rq : request) : M response := fun w =>
  let out := net w 0%nat in
  let w' := mkWorld (clock w) (behead (net w)) (stdin w) (disk w) (fault w)
                 (token_file w)
                    (trace w ++ [EvHttp rq out]) in
  match out with
  | NetFail => (Raise ConnectionError, w')
  | NetResp r => (Ok r, w')
  end.

(** [response.raise_for_status()] raises on the 4xx and 5xx statuses. *)
Definition is_error_status (st : Z) : bool := (400 <=? st) && (st <? 600).

Definition raise_for_status (r : response) : M unit :=
  if is_error_status (status_code r) then raise (HTTPError (status_code r))
  else ret tt.

(** [response.json()] *)
Definition response_json (r : response) : M json :=
  match content r with
  | Some v => ret v
  | None => raise JSONDecodeError
  end.

(** [response.headers.get('Link', '')] *)
Definition link_header (r : response) : string :=
  match link r with Some l => l | None => EmptyString end.

(** [time.sleep(0.2)] *)
Definition sleep : M unit := fun w =>
  (Ok tt, mkWorld (clock w) (net w) (stdin w) (disk w) (fault w)
                 (token_file w)
                  (trace w ++ [EvSleep])).

(** [webbrowser.open(url)], the URL being the authorization endpoint
    followed by the url-encoded [params]. *)
Definition open_browser (params : list (string * string)) : M unit := fun w =>
  (Ok tt, mkWorld (clock w) (net w) (stdin w) (disk w) (fault w)
                 (token_file w)
                  (trace w ++ [EvBrowser params])).

(** [input(prompt)] raises [EOFError] at the end of the input. *)
Definition input : M string := fun w =>
  let l := stdin w 0%nat in
  let w' := mkWorld (clock w) (net w) (behead (stdin w)) (disk w) (fault w)
                 (token_file w)
                    (trace w ++ [EvInput l]) in
  match l with
  | Some s => (Ok s, w')
  | None => (Raise EOFError, w')
  end.

(** The HTTP exchanges of a trace, in order. *)
Definition http_events (tr : list event) : list (request * outcome) :=
  flat_map (fun e => match e with EvHttp rq out => [(rq, out)] | _ => [] end) tr.

Arguments http_events : simpl never.

(** ** [class BasecampAPI] *)

Record BasecampAPI : Type := mkAPI {
  token_data : json;
  base_url : string;
  auth_url : string
}.

(** [BasecampAPI.__init__(self, token_data=None)] *)
Definition BasecampAPI_init (token_data : json) : BasecampAPI :=
  mkAPI token_data "https://3.basecampapi.com" "https://launchpad.37signals.com".

Definition no_token_msg : string := "No authentication token available".

(** [BasecampAPI.headers] *)
Definition headers (api : BasecampAPI) : M headers_t :=
  if negb (Py.truthy (token_data api)) then raise (ValueError no_token_msg)
  else
    tok <- lift (Py.getitem (token_data api) "access_token") ;;
    ret (mkHeaders [Lit "Bearer "; Fmt tok]).

(** [requests.get(url, headers=self.headers)] followed by
    [raise_for_status()] and [json()]: the headers are built before the
    call is made. *)
Definition api_get (api : BasecampAPI) (u : fstring) : M response :=
  h <- headers api ;;
  send (mkRequest GET u (Some h) NoBody).

Definition api_post (api : BasecampAPI) (u : fstring) (data : list (string * json))
  : M response :=
  h <- headers api ;;
  send (mkRequest POST u (Some h) (JsonBody data)).

Definition checked_json (r : response) : M json :=
  raise_for_status r ;;; response_json r.

(** [BasecampAPI.get_identity] *)
Definition get_identity (api : BasecampAPI) : M json :=
  r <- api_get api [Lit (auth_url api); Lit "/authorization.json"] ;;
  checked_json r.

Definition rel_next : string :=
  "rel=" ++ String PyStr.dquote ("next" ++ String PyStr.dquote EmptyString).

Arguments rel_next : simpl never.

Definition projects_url (api : BasecampAPI) (account_id : json) (page : Z) : fstring :=
  [Lit (base_url api); Lit "/"; Fmt account_id; Lit "/projects.json?page=";
   Fmt (JInt page)].

(** What one turn of the [while True] loop decides. *)
Inductive turn : Type :=
| Break (all_projects : list json)
| Continue (all_projects : list json).

(** The body of the loop of [get_projects], for page number [page] and the
    records gathered so far. *)
Definition get_projects_body (api : BasecampAPI) (account_id : json)
    (get_all : bool) (page : Z) (all_projects : list json) : M turn :=
  r <- api_get api (projects_url api account_id page) ;;
  projects <- checked_json r ;;
  if negb (Py.truthy projects) then ret (Break all_projects)
  else
    items <- lift (Py.iter projects) ;;
    let all_projects := (all_projects ++ items)%list in
    if negb get_all then ret (Break all_projects)
    else
      if negb (PyStr.contains rel_next (link_header r)) then ret (Break all_projects)
      else sleep ;;; ret (Continue all_projects).

(** The loop itself; [None] when [fuel] turns were not enough to leave it. *)
Fixpoint get_projects_loop (fuel : nat) (api : BasecampAPI) (account_id : json)
    (get_all : bool) (page : Z) (all_projects : list json) (w : world)
  : option (result (list json) * world) :=
  match fuel with
  | O => None
  | S fuel' =>
      match get_projects_body api account_id get_all page all_projects w with
      | (Raise e, w') => Some (Raise e, w')
      | (Ok (Break all), w') => Some (Ok all, w')
      | (Ok (Continue all), w') =>
          get_projects_loop fuel' api account_id get_all (page + 1) all w'
      end
  end.

(** [BasecampAPI.get_projects(self, account_id, get_all=True)] *)
Definition get_projects (fuel : nat) (api : BasecampAPI) (account_id : json)
    (get_all : bool) (w : world) : option (result (list json) * world) :=
  get_projects_loop fuel api account_id get_all 1 [] w.

Definition project_url (api : BasecampAPI) (account_id project_id : json) : fstring :=
  [Lit (base_url api); Lit "/"; Fmt account_id; Lit "/projects/"; Fmt project_id;
   Lit ".json"].

(** [BasecampAPI.get_project] *)
Definition get_project (api : BasecampAPI) (account_id project_id : json) : M json :=
  r <- api_get api (project_url api account_id project_id) ;;
  checked_json r.

(** The [for dock_item in ...] loop shared by the three dock lookups: the
    [id] of the first item whose [name] is [tool]. *)
Fixpoint scan_dock (tool : string) (items : list json) : result (option json) :=
  match items with
  | [] => Ok None
  | dock_item :: rest =>
      let? name := Py.get dock_item "name" JNull in
      if Py.is_str tool name
      then let? id := Py.get dock_item "id" JNull in Ok (Some id)
      else scan_dock tool rest
  end.

(** [if 'dock' in project: for dock_item in project['dock']: ...] *)
Definition find_in_dock (tool : string) (project : json) : result (option json) :=
  let? has_dock := Py.contains "dock" project in
  if has_dock
  then let? dock := Py.getitem project "dock" in
       let? items := Py.iter dock in
       scan_dock tool items
  else Ok None.

Definition no_todoset_msg : string := "No todoset found for this project".
Definition no_message_board_msg : string := "No message board found for this project".
Definition no_campfire_msg : string := "No campfire found for this project".

(** [BasecampAPI.get_todoset] *)
Definition get_todoset (api : BasecampAPI) (account_id project_id : json) : M json :=
  project <- get_project api account_id project_id ;;
  found <- lift (find_in_dock "todoset" project) ;;
  match found with
  | Some id => ret id
  | None => raise (ValueError no_todoset_msg)
  end.

Definition bucket_url (api : BasecampAPI) (account_id project_id : json)
    (kind : string) (id : json) (leaf : string) : fstring :=
  [Lit (base_url api); Lit "/"; Fmt account_id; Lit "/buckets/"; Fmt project_id;
   Lit kind; Fmt id; Lit leaf].

(** [BasecampAPI.get_todolists] *)
Definition get_todolists (api : BasecampAPI) (account_id project_id todoset_id : json)
  : M json :=
  r <- api_get api (bucket_url api account_id project_id "/todosets/" todoset_id
                               "/todolists.json") ;;
  checked_json r.

(** [BasecampAPI.create_todolist] *)
Definition create_todolist (api : BasecampAPI) (account_id project_id todoset_id : json)
    (name description : string) : M json :=
  let data :=
    [("name", JStr name);
     ("description",
      JStr (if String.eqb description EmptyString then EmptyString
            else "<div>" ++ description ++ "</div>"))] in
  r <- api_post api (bucket_url api account_id project_id "/todosets/" todoset_id
                                "/todolists.json") data ;;
  checked_json r.

(** [BasecampAPI.get_todos] *)
Definition get_todos (api : BasecampAPI) (account_id project_id todolist_id : json)
  : M json :=
  r <- api_get api (bucket_url api account_id project_id "/todolists/" todolist_id
                               "/todos.json") ;;
  checked_json r.

(** [BasecampAPI.create_todo] *)
Definition create_todo (api : BasecampAPI) (account_id project_id todolist_id : json)
    (content description : string) : M json :=
  let data :=
    [("content", JStr content);
     ("description",
      JStr (if String.eqb description EmptyString then EmptyString else description))] in
  r <- api_post api (bucket_url api account_id project_id "/todolists/" todolist_id
                                "/todos.json") data ;;
  checked_json r.

(** [BasecampAPI.post_message] *)
Definition post_message (api : BasecampAPI) (account_id project_id : json)
    (title content : string) : M json :=
  project <- get_project api account_id project_id ;;
  found <- lift (find_in_dock "message_board" project) ;;
  let message_board_id := match found with Some id => id | None => JNull end in
  if negb (Py.truthy message_board_id) then raise (ValueError no_message_board_msg)
  else
    let data := [("subject", JStr title);
                 ("content", JStr ("<div>" ++ content ++ "</div>"))] in
    r <- api_post api (bucket_url api account_id project_id "/message_boards/"
                                  message_board_id "/messages.json") data ;;
    checked_json r.

(** [BasecampAPI.get_campfire] *)
Definition get_campfire (api : BasecampAPI) (account_id project_id : json) : M json :=
  project <- get_project api account_id project_id ;;
  found <- lift (find_in_dock "chat" project) ;;
  match found with
  | Some id => ret id
  | None => raise (ValueError no_campfire_msg)
  end.

(** [BasecampAPI.post_to_campfire] *)
Definition post_to_campfire (api : BasecampAPI) (account_id project_id : json)
    (content : string) : M json :=
  campfire_id <- get_campfire api account_id project_id ;;
  let data := [("content", JStr content)] in
  r <- api_post api (bucket_url api account_id project_id "/chats/" campfire_id
                                "/lines.json") data ;;
  checked_json r.

(** The operations of the client, for statements about all of them. *)
Inductive api_call : Type :=
| GetIdentity
| GetProjects (account_id : json) (get_all : bool)
| GetProject (account_id project_id : json)
| GetTodoset (account_id project_id : json)
| GetTodolists (account_id project_id todoset_id : json)
| CreateTodolist (account_id project_id todoset_id : json) (name description : string)
| GetTodos (account_id project_id todolist_id : json)
| CreateTodo (account_id project_id todolist_id : json) (content description : string)
| PostMessage (account_id project_id : json) (title content : string)
| GetCampfire (account_id project_id : json)
| PostToCampfire (account_id project_id : json) (content : string).

Definition invoke (fuel : nat) (api : BasecampAPI) (c : api_call) (w : world)
  : option (result json * world) :=
  match c with
  | GetIdentity => Some (get_identity api w)
  | GetProjects a get_all =>
      match get_projects fuel api a get_all w with
      | Some (Ok l, w') => Some (Ok (JArr l), w')
      | Some (Raise e, w') => Some (Raise e, w')
      | None => None
      end
  | GetProject a p => Some (get_project api a p w)
  | GetTodoset a p => Some (get_todoset api a p w)
  | GetTodolists a p t => Some (get_todolists api a p t w)
  | CreateTodolist a p t n d => Some (create_todolist api a p t n d w)
  | GetTodos a p t => Some (get_todos api a p t w)
  | CreateTodo a p t c d => Some (create_todo api a p t c d w)
  | PostMessage a p t c => Some (post_message api a p t c w)
  | GetCampfire a p => Some (get_campfire api a p w)
  | PostToCampfire a p c => Some (post_to_campfire api a p c w)
  end.

(** ** [class BasecampAuth] *)

Record BasecampAuth : Type := mkAuth {
  client_id : string;
  client_secret : string;
  redirect_uri : string
}.

Definition token_endpoint : fstring :=
  [Lit "https://launchpad.37signals.com/authorization/token"].

(** [BasecampAuth.load_token] *)
Definition load_token : M json := fun w =>
  (Ok (match token_file w with Some v => v | None => JNull end), w).

(** What the token file decodes to after a write of [token_data] that
    failed at [f]: the file is untouched when the directory or the file
    could not be opened, truncated or cut short when the dump failed (the
    callers write objects, no proper prefix of which is JSON), and
    complete when only [os.chmod] failed. *)
Definition file_after_fault (f : save_fault) (old : option json) (token_data : json)
  : option json :=
  match f with
  | AtMakedirs | AtOpen => old
  | AtWrite => None
  | AtChmod => Some token_data
  end.

(** [BasecampAuth.save_token].  A write that fails raises [OSError]. *)
Definition save_token (token_data : json) : M unit := fun w =>
  let ok := disk w 0%nat in
  let w' := mkWorld (clock w) (net w) (stdin w) (behead (disk w))
                    (behead (fault w))
                    (if ok then Some token_data
                     else file_after_fault (fault w 0%nat) (token_file w) token_data)
                    (trace w ++ [EvSave token_data ok]) in
  if ok then (Ok tt, w') else (Raise OSError, w').

(** Lines 255 to 257 of [login]: the code out of what the user pasted. *)
Definition extract_auth_code (code_input : string) : string :=
  if PyStr.contains "?code=" code_input
  then nth 0 (PyStr.split "&" (nth 1 (PyStr.split "?code=" code_input) EmptyString))
           EmptyString
  else code_input.

Definition no_code_msg : string := "No authorization code entered".

Definition login_request (auth : BasecampAuth) (auth_code : string) : request :=
  mkRequest POST token_endpoint None
    (FormData [("type", JStr "web_server");
               ("client_id", JStr (client_id auth));
               ("client_secret", JStr (client_secret auth));
               ("code", JStr auth_code);
               ("redirect_uri", JStr (redirect_uri auth));
               ("grant_type", JStr "authorization_code")]).

Definition auth_params (auth : BasecampAuth) : list (string * string) :=
  [("client_id", client_id auth);
   ("redirect_uri", redirect_uri auth);
   ("response_type", "code");
   ("type", "web_server")].

(** [BasecampAuth.login] *)
Definition login (auth : BasecampAuth) : M json :=
  open_browser (auth_params auth) ;;;
  line <- input ;;
  let code_input := PyStr.strip line in
  let auth_code := extract_auth_code code_input in
  if String.eqb auth_code EmptyString then raise (ValueError no_code_msg)
  else
    token_response <- send (login_request auth auth_code) ;;
    token_data <- checked_json token_response ;;
    now <- time_now ;;
    token_data <- lift (Py.setitem token_data "obtained_at" (JInt now)) ;;
    save_token token_data ;;;
    ret token_data.

Definition no_refresh_msg : string := "No refresh token available".

Definition refresh_request (auth : BasecampAuth) (refresh : json) : request :=
  mkRequest POST token_endpoint None
    (FormData [("type", JStr "refresh");
               ("client_id", JStr (client_id auth));
               ("client_secret", JStr (client_secret auth));
               ("refresh_token", refresh);
               ("grant_type", JStr "refresh_token")]).

(** [BasecampAuth.refresh_token] *)
Definition refresh_token (auth : BasecampAuth) (token_data : json) : M json :=
  has_refresh <- lift (Py.contains "refresh_token" token_data) ;;
  if negb has_refresh then raise (ValueError no_refresh_msg)
  else
    refresh <- lift (Py.getitem token_data "refresh_token") ;;
    token_response <- send (refresh_request auth refresh) ;;
    new_token_data <- checked_json token_response ;;
    now <- time_now ;;
    new_token_data <- lift (Py.setitem new_token_data "obtained_at" (JInt now)) ;;
    new_has <- lift (Py.contains "refresh_token" new_token_data) ;;
    new_token_data <-
      (if negb new_has
       then old_has <- lift (Py.contains "refresh_token" token_data) ;;
            if old_has
            then old <- lift (Py.getitem token_data "refresh_token") ;;
                 lift (Py.setitem new_token_data "refresh_token" old)
            else ret new_token_data
       else ret new_token_data) ;;
    save_token new_token_data ;;;
    ret new_token_data.

(** The test of line 341,
    [(current_time - obtained_at) > (expires_in - 300)], with the two
    [.get] calls that feed it. *)
Definition token_expired (current_time : Z) (token_data : json) : result bool :=
  let? obtained_at := Py.get token_data "obtained_at" (JInt 0) in
  let? expires_in := Py.get token_data "expires_in" (JInt 7200) in
  let? oa := Py.as_int obtained_at in
  let? ei := Py.as_int expires_in in
  Ok (current_time - oa >? ei - 300).

(** [BasecampAuth.get_valid_token]; the result [JNull] is [None]. *)
Definition get_valid_token (auth : BasecampAuth) : M json :=
  token_data <- load_token ;;
  if negb (Py.truthy token_data) then ret JNull
  else
    current_time <- time_now ;;
    expired <- lift (token_expired current_time token_data) ;;
    if expired
    then try_except (refresh_token auth token_data) (fun _ => ret JNull)
    else ret token_data.

(** ** [class BasecampCLI] *)

(** [BasecampCLI.ensure_auth]; the client it stores in [self.api] is
    returned beside the credential. *)
Definition ensure_auth (auth : BasecampAuth) : M (BasecampAPI * json) :=
  token_data <- get_valid_token auth ;;
  token_data <- (if negb (Py.truthy token_data) then login auth
                 else ret token_data) ;;
  ret (BasecampAPI_init token_data, token_data).

(** The seconds left that [cmd_auth_status] computes,
    [(obtained_at + expires_in) - current_time], with the two [.get]
    calls that feed it.  Operands that are not integers end in a
    [TypeError], at the sum or at the difference. *)
Definition status_remaining (current_time : Z) (token_data : json) : result Z :=
  let? obtained_at := Py.get token_data "obtained_at" (JInt 0) in
  let? expires_in := Py.get token_data "expires_in" (JInt 7200) in
  let? oa := Py.as_int obtained_at in
  let? ei := Py.as_int expires_in in
  Ok (oa + ei - current_time).

(** [BasecampCLI.cmd_auth_status].  What follows [get_identity] inside
    the [try] only prints; an exception there is caught like one of
    [get_identity], so the block ends the same way in every case. *)
Definition cmd_auth_status : M unit :=
  token_data <- load_token ;;
  if negb (Py.truthy token_data) then ret tt
  else
    current_time <- time_now ;;
    remaining <- lift (status_remaining current_time token_data) ;;
    if remaining <=? 0 then ret tt
    else
      try_except (get_identity (BasecampAPI_init token_data) ;;; ret tt)
                 (fun _ => ret tt).

(** ** Specification vocabulary *)

(** The request a client with access token [tok] sends for [u]. *)
Definition authed (m : method) (u : fstring) (tok : json) (b : payload) : request :=
  mkRequest m u (Some (mkHeaders [Lit "Bearer "; Fmt tok])) b.

(** The client holds a credential from which headers can be built. *)
Definition has_access_token (api : BasecampAPI) (tok : json) : Prop :=
  Py.truthy (token_data api) = true /\
  Py.getitem (token_data api) "access_token" = Ok tok.

(** The request for page [page] of the projects of [account_id]. *)
Definition page_request (api : BasecampAPI) (account_id tok : json) (page : Z)
  : request :=
  authed GET (projects_url api account_id page) tok NoBody.

(** The request for the project [project_id]. *)
Definition project_request (api : BasecampAPI) (account_id project_id tok : json)
  : request :=
  authed GET (project_url api account_id project_id) tok NoBody.

(** The outcome [o] is a successful page holding [records], whose [Link]
    header announces a next page exactly when [more] holds. *)
Definition page_of (o : outcome) (records : list json) (more : bool) : Prop :=
  exists r, o = NetResp r /\
            is_error_status (status_code r) = false /\
            content r = Some (JArr records) /\
            PyStr.contains rel_next (link_header r) = more.

(** The outcome [o] is a successful answer whose body decodes to [v]. *)
Definition answers (o : outcome) (v : json) : Prop :=
  exists r, o = NetResp r /\
            is_error_status (status_code r) = false /\
            content r = Some v.

(** The outcome [o] is a successful answer holding the object [project]. *)
Definition project_of (o : outcome) (project : dict) : Prop :=
  answers o (JObj project).

(** A dock entry: an object, and whether its [name] is [tool]. *)
Definition dock_entry (tool : string) (item : json) (is_tool : bool) : Prop :=
  exists d, item = JObj d /\
            match Dict.get "name" d with
            | Some v => Py.is_str tool v
            | None => false
            end = is_tool.

(** The project has no dock, or a dock none of whose entries is [tool]. *)
Definition lacks_tool (tool : string) (project : dict) : Prop :=
  Dict.get "dock" project = None \/
  exists items, Dict.get "dock" project = Some (JArr items) /\
                Forall (fun item => dock_entry tool item false) items.

(** The first dock entry named [tool] is the object [d]. *)
Definition first_tool (tool : string) (project : dict) (d : dict) : Prop :=
  exists before after,
    Dict.get "dock" project = Some (JArr (before ++ JObj d :: after)) /\
    Forall (fun item => dock_entry tool item false) before /\
    dock_entry tool (JObj d) true.

(** [d.get('id')] *)
Definition id_of (d : dict) : json :=
  match Dict.get "id" d with Some v => v | None => JNull end.

(** No occurrence of [sep] in [a ++ y] starts inside [a]. *)
Definition no_match_in (sep a y : string) : Prop :=
  forall a1 a2, a = a1 ++ a2 -> a2 <> EmptyString -> prefix sep (a2 ++ y) = false.

(** No proper end of [sep] starts [y]: an occurrence of [sep] cannot begin
    before [y] and finish inside it. *)
Definition no_overlap (sep y : string) : Prop :=
  forall p q, sep = p ++ q -> p <> EmptyString -> q <> EmptyString ->
              prefix q y = false.

(** The world once the clock has been read. *)
Definition ticked (w : world) : world := snd (time_now w).

(** The world once [rq] has been sent, and once the loop has paused. *)
Definition sent (rq : request) (w : world) : world := snd (send rq w).
Definition slept (w : world) : world := snd (sleep w).

(** Between [w] and [w'] a token answer came in, was stamped with the
    clock reading that followed it, and the write of the stamped
    credential failed. *)
Definition stamped_write_failed (w w' : world) : Prop :=
  exists d rq resp before,
    net w 0%nat = NetResp resp /\
    disk w 0%nat = false /\
    Dict.get "obtained_at" d = Some (JInt (clock w 0%nat)) /\
    token_file w' = file_after_fault (fault w 0%nat) (token_file w) (JObj d) /\
    trace w' = (before ++ [EvHttp rq (NetResp resp);
                           EvTime (clock w 0%nat);
                           EvSave (JObj d) false])%list.


(** The world once [login] has opened the browser and read a line. *)
Definition prompted (auth : BasecampAuth) (w : world) : world :=
  snd (input (snd (open_browser (auth_params auth) w))).


(** The identity request of a client with access token [tok]. *)
Definition identity_request (tok : json) : request :=
  authed GET [Lit "https://launchpad.37signals.com"; Lit "/authorization.json"]
         tok NoBody.

(** Every character of [s] is white space. *)
Definition blank (s : string) : bool :=
  forallb PyStr.isspace (list_ascii_of_string s).

(** ** Sample data *)

Module Sample.

Definition auth : BasecampAuth := mkAuth "my-id" "my-secret" "http://localhost".

Definition api : BasecampAPI :=
  BasecampAPI_init (JObj [("access_token", JStr "abc")]).

Definition account_id : json := JStr "999".
Definition project_id : json := JInt 12.

(** A world whose clock starts at [now], where the HTTP calls get the
    outcomes [outs] and then fail, one line has been typed if [line] is
    given, writes succeed and the token file holds [file]. *)
Definition world_of (now : Z) (outs : list outcome) (line : option string)
    (file : option json) : world :=
  mkWorld (fun n => now + Z.of_nat n)
          (fun n => nth n outs NetFail)
          (fun n => match n with O => line | S _ => None end)
          (fun _ => true)
          (fun _ => AtOpen)
          file
          [].

Definition now : Z := 1700000000.

Definition ok_json (lnk : option string) (v : json) : outcome :=
  NetResp (mkResponse 200 lnk (Some v)).

(** Two projects on a first page that announces a second, empty one. *)
Definition page1 : list json := [JObj [("id", JInt 1)]; JObj [("id", JInt 2)]].

Definition next_link : string :=
  "<https://3.basecampapi.com/999/projects.json?page=2>; " ++ rel_next.

Definition paged : world :=
  world_of now [ok_json (Some next_link) (JArr page1); ok_json None (JArr [])]
           None None.

(** A project with a todo set and no chat. *)
Definition todoset_entry : dict :=
  [("id", JInt 42); ("name", JStr "todoset"); ("enabled", JBool true)].

Definition project : dict :=
  [("id", JInt 12); ("name", JStr "Launch");
   ("dock", JArr [JObj [("id", JInt 41); ("name", JStr "message_board")];
                  JObj todoset_entry])].

Definition with_project : world :=
  world_of now [ok_json None (JObj project)] None None.

(** A credential obtained 7000 seconds ago and valid for 7200, and the
    answer of the token endpoint to its refresh; the answer brings no
    refresh token and an [obtained_at] of its own. *)
Definition old_cred : dict :=
  [("access_token", JStr "abc"); ("refresh_token", JStr "r-1");
   ("expires_in", JInt 7200); ("obtained_at", JInt (now - 7000))].

Definition new_cred : dict :=
  [("access_token", JStr "def"); ("expires_in", JInt 1209600);
   ("obtained_at", JInt 1)].

Definition stale : world :=
  world_of now [ok_json None (JObj new_cred)] None (Some (JObj old_cred)).

(** The same credential without its refresh token. *)
Definition bare_cred : dict :=
  [("access_token", JStr "abc");
   ("expires_in", JInt 7200); ("obtained_at", JInt (now - 7000))].

Definition stale_bare : world :=
  world_of now [] None (Some (JObj bare_cred)).

(** A credential without [obtained_at] whose [expires_in] lies beyond the
    clock. *)
Definition undated_cred : dict :=
  [("access_token", JStr "abc"); ("expires_in", JInt 2000000000)].

Definition undated : world :=
  world_of now [] None (Some (JObj undated_cred)).

(** The user pastes the redirect URL, with blanks around it. *)
Definition pasted : string := "  http://localhost?code=ABC123&state=xyz ".

Definition at_prompt : world :=
  world_of now [ok_json None (JObj new_cred)] (Some pasted) None.

(** An answer with status 404 and a body that is not JSON. *)
Definition not_found : outcome := NetResp (mkResponse 404 None None).

Definition refused : world := world_of now [not_found] None None.

(** A first page that announces a second, which the server fails to
    serve. *)
Definition broken_paging : world :=
  world_of now [ok_json (Some next_link) (JArr page1);
                NetResp (mkResponse 500 None None)] None None.

(** A server that announces a next page for ever. *)
Definition endless : world :=
  mkWorld (fun n => now + Z.of_nat n)
          (fun _ => ok_json (Some next_link) (JArr page1))
          (fun _ => None) (fun _ => true) (fun _ => AtOpen) None [].

(** A client whose credential has no access token. *)
Definition api_without_token : BasecampAPI :=
  BasecampAPI_init (JObj [("token_type", JStr "Bearer")]).

(** A message is posted to the project, and created. *)
Definition created : json := JObj [("id", JInt 77)].

Definition posting : world :=
  world_of now [ok_json None (JObj project); ok_json None created] None None.

(** A project whose message board has no id, and whose chat has one. *)
Definition chat_entry : dict := [("id", JInt 43); ("name", JStr "chat")].

Definition project_with_chat : dict :=
  [("id", JInt 12);
   ("dock", JArr [JObj [("name", JStr "message_board")]; JObj chat_entry])].

Definition chatting : world :=
  world_of now [ok_json None (JObj project_with_chat); ok_json None created]
           None None.

(** A project whose dock is [null]. *)
Definition project_without_dock : dict := [("id", JInt 12); ("dock", JNull)].

Definition dockless : world :=
  world_of now [ok_json None (JObj project_without_dock)] None None.

(** An answer to a refresh that brings a new refresh token. *)
Definition rotated_cred : dict :=
  [("access_token", JStr "def"); ("refresh_token", JStr "r-2");
   ("expires_in", JInt 1209600)].

Definition rotating : world :=
  world_of now [ok_json None (JObj rotated_cred)] None (Some (JObj old_cred)).

(** A token file edited by hand: the stamp is a date in text. *)
Definition edited_cred : dict :=
  [("access_token", JStr "abc"); ("obtained_at", JStr "2023-11-14")].

Definition edited : world := world_of now [] None (Some (JObj edited_cred)).

(** The same world, except that every write of the token file fails, at
    [f]. *)
Definition failing_disk (f : save_fault) (w : world) : world :=
  mkWorld (clock w) (net w) (stdin w) (fun _ => false) (fun _ => f)
          (token_file w) (trace w).

(** The user presses return at the prompt. *)
Definition empty_line : world := world_of now [] (Some "   ") None.

End Sample.

(** * Properties *)

(** ** Generic facts *)

Lemma http_events_app (t1 t2 : list event) :
  http_events (t1 ++ t2) = (http_events t1 ++ http_events t2)%list.
Proof. unfold http_events. now rewrite flat_map_app. Qed.

Lemma http_events_cons (e : event) (t : list event) :
  http_events (e :: t)
  = (match e with EvHttp rq out => [(rq, out)] | _ => [] end ++ http_events t)%list.
Proof. reflexivity. Qed.

Lemma http_events_nil : http_events [] = [].
Proof. reflexivity. Qed.

(** Bring the exchanges of a trace built by appending into normal form. *)
Ltac http_norm :=
  cbn [trace snd fst];
  rewrite ?http_events_app, ?http_events_cons, ?http_events_nil;
  cbn [app]; rewrite ?app_nil_r, <- ?app_assoc; cbn [app].

Lemma api_get_send (api : BasecampAPI) (tok : json) (u : fstring) (w : world) :
  has_access_token api tok ->
  api_get api u w = send (authed GET u tok NoBody) w.
Proof.
  intros [Ht Hk]. unfold api_get, headers, bind, lift, ret.
  rewrite Ht. cbn. now rewrite Hk.
Qed.

Lemma api_post_send (api : BasecampAPI) (tok : json) (u : fstring)
    (data : list (string * json)) (w : world) :
  has_access_token api tok ->
  api_post api u data w = send (authed POST u tok (JsonBody data)) w.
Proof.
  intros [Ht Hk]. unfold api_post, headers, bind, lift, ret.
  rewrite Ht. cbn. now rewrite Hk.
Qed.

Lemma api_get_no_token (api : BasecampAPI) (u : fstring) (w : world) :
  Py.truthy (token_data api) = false ->
  api_get api u w = (Raise (ValueError no_token_msg), w).
Proof.
  intros Ht. unfold api_get, headers, bind, raise. now rewrite Ht.
Qed.

Lemma api_post_no_token (api : BasecampAPI) (u : fstring)
    (data : list (string * json)) (w : world) :
  Py.truthy (token_data api) = false ->
  api_post api u data w = (Raise (ValueError no_token_msg), w).
Proof.
  intros Ht. unfold api_post, headers, bind, raise. now rewrite Ht.
Qed.

(** ** The client without a credential *)

(** Any credential that tests false, [None] or an empty object alike,
    stops every operation where the headers are built. *)
Lemma invoke_no_token (api : BasecampAPI) (c : api_call) (fuel : nat) (w : world) :
  Py.truthy (token_data api) = false ->
  invoke (S fuel) api c w = Some (Raise (ValueError no_token_msg), w).
Proof.
  intros Ht. destruct c; cbn [invoke];
    unfold post_to_campfire, get_identity, get_projects, get_todoset, get_todolists,
      create_todolist, get_todos, create_todo, post_message, get_campfire,
      get_project, bind;
    cbn [get_projects_loop]; unfold get_projects_body, bind;
    now rewrite ?api_get_no_token, ?api_post_no_token by exact Ht.
Qed.

(** C9.  Building a client from an absent credential succeeds and keeps the
    absent credential; every operation invoked on that client then raises
    the error of [headers], "No authentication token available", and
    leaves the world as it was: no request has been sent. *)
Theorem no_credential_fails_at_headers :
  token_data (BasecampAPI_init JNull) = JNull /\
  forall (c : api_call) (fuel : nat) (w : world),
    invoke (S fuel) (BasecampAPI_init JNull) c w
    = Some (Raise (ValueError no_token_msg), w).
Proof.
  split; [reflexivity|].
  intros c fuel w. now apply invoke_no_token.
Qed.

(** ** Pagination *)

Section Pagination.

Variables (api : BasecampAPI) (account_id tok : json).
Hypothesis Hcred : has_access_token api tok.

Local Abbreviation page_rq := (page_request api account_id tok).

(** A turn of the loop sends one request, whatever comes back, and
    nothing else but the pause before the next turn. *)
Lemma get_projects_body_trace (get_all : bool) (page : Z) (acc : list json)
    (w : world) :
  let (r, w') := get_projects_body api account_id get_all page acc w in
  http_events (trace w')
  = (http_events (trace w) ++ [(page_rq page, net w 0%nat)])%list
  /\ (forall all, r = Ok (Continue all) -> get_all = true).
Proof.
  unfold get_projects_body, bind.
  rewrite api_get_send with (1 := Hcred). unfold send.
  destruct (net w 0%nat) as [|r]; cbn.
  - rewrite http_events_app. split; [reflexivity | discriminate].
  - unfold checked_json, raise_for_status, response_json, bind, raise, ret.
    destruct (is_error_status (status_code r)); cbn;
      [rewrite http_events_app; split; [reflexivity | discriminate] |].
    destruct (content r) as [projects|]; cbn;
      [| rewrite http_events_app; split; [reflexivity | discriminate]].
    destruct (Py.truthy projects); cbn;
      [| rewrite http_events_app; split; [reflexivity | discriminate]].
    unfold lift. destruct (Py.iter projects) as [items|e]; cbn;
      [| rewrite http_events_app; split; [reflexivity | discriminate]].
    destruct get_all; cbn;
      [| rewrite http_events_app; split; [reflexivity | discriminate]].
    destruct (PyStr.contains rel_next (link_header r)); cbn;
      rewrite ?http_events_app; cbn; rewrite ?app_nil_r;
      split; try reflexivity; try discriminate.
Qed.


Lemma sent_trace (rq : request) (w : world) :
  trace (sent rq w) = (trace w ++ [EvHttp rq (net w 0%nat)])%list.
Proof. unfold sent, send. now destruct (net w 0%nat). Qed.

Lemma sent_net (rq : request) (w : world) (i : nat) :
  net (sent rq w) i = net w (S i).
Proof. unfold sent, send. now destruct (net w 0%nat). Qed.

(** What a turn does with a successful page. *)
Lemma get_projects_body_page (get_all : bool) (page : Z) (acc records : list json)
    (more : bool) (w : world) :
  page_of (net w 0%nat) records more ->
  get_projects_body api account_id get_all page acc w
  = match records with
    | [] => (Ok (Break acc), sent (page_rq page) w)
    | _ :: _ =>
        if get_all && more
        then (Ok (Continue (acc ++ records)), slept (sent (page_rq page) w))
        else (Ok (Break (acc ++ records)), sent (page_rq page) w)
    end.
Proof.
  intros (r & Hnet & Hst & Hbody & Hlink).
  unfold get_projects_body, bind.
  rewrite api_get_send with (1 := Hcred). unfold sent, page_request, send.
  rewrite Hnet. cbn.
  unfold checked_json, raise_for_status, response_json, bind, ret.
  rewrite Hst. cbn. rewrite Hbody. cbn.
  destruct records as [|x records]; cbn; [reflexivity|].
  destruct get_all; cbn; [|reflexivity].
  rewrite Hlink. now destruct more.
Qed.

(** The loop over a run of pages: [pages] are the non-empty pages that
    announce a successor, [last] is the page that ends the run. *)
Lemma get_projects_loop_pages (last : list json) :
  forall (pages : list (list json)) (w : world) (page : Z) (acc : list json)
         (fuel : nat),
    (forall i, (i < List.length pages)%nat ->
               nth i pages [] <> [] /\ page_of (net w i) (nth i pages []) true) ->
    (exists more, page_of (net w (List.length pages)) last more /\
                  (last = [] \/ more = false)) ->
    (List.length pages < fuel)%nat ->
    exists w',
      get_projects_loop fuel api account_id true page acc w
      = Some (Ok (acc ++ List.concat pages ++ last)%list, w') /\
      http_events (trace w')
      = (http_events (trace w)
         ++ map (fun i => (page_rq (page + Z.of_nat i), net w i))
                (seq 0 (S (List.length pages))))%list.
Proof.
  induction pages as [|p ps IH]; intros w page acc fuel Hpages Hlast Hfuel.
  - destruct fuel as [|fuel]; [cbn in Hfuel; lia|].
    destruct Hlast as (more & Hpage & Hstop).
    cbn [get_projects_loop List.length] in *.
    rewrite get_projects_body_page with (1 := Hpage).
    exists (sent (page_rq page) w).
    rewrite sent_trace. http_norm. cbn. rewrite Z.add_0_r.
    split; [|reflexivity].
    destruct last as [|x last]; [now rewrite app_nil_r|].
    destruct Hstop as [Hnil | ->]; [discriminate | reflexivity].
  - destruct fuel as [|fuel]; [cbn in Hfuel; lia|].
    destruct (Hpages 0%nat) as [Hne Hpage]; [cbn; lia|].
    cbn [nth] in Hne, Hpage.
    cbn [get_projects_loop].
    rewrite get_projects_body_page with (1 := Hpage).
    destruct p as [|x p]; [congruence|]. cbn [andb].
    destruct (IH (slept (sent (page_rq page) w)) (page + 1)
                 (acc ++ x :: p)%list fuel) as (w' & Hrun & Htr).
    + intros i Hi. rewrite (sent_net _ w i : net (slept _) i = _).
      apply (Hpages (S i)). cbn. lia.
    + destruct Hlast as (more & Hl & Hstop). exists more.
      split; [|exact Hstop].
      now rewrite (sent_net _ w _ : net (slept _) _ = _).
    + cbn in Hfuel. lia.
    + exists w'. split.
      * rewrite Hrun. cbn [List.concat]. now rewrite <- !app_assoc.
      * rewrite Htr.
        change (trace (slept (sent (page_rq page) w)))
          with (trace (sent (page_rq page) w) ++ [EvSleep])%list.
        rewrite sent_trace. http_norm. f_equal.
        cbn [List.length].
        rewrite <- (cons_seq (S (List.length ps)) 0), <- seq_shift, map_cons, map_map.
        cbn [app]. rewrite Z.add_0_r. f_equal.
        apply map_ext. intros i.
        rewrite (sent_net _ w i : net (slept _) i = _).
        f_equal. f_equal. lia.
Qed.

(** C7.  With [get_all] false, [get_projects] sends exactly one request,
    the one for page 1, whatever the answer and whatever its [Link]
    header says; when that answer is a page, its records are what
    comes back. *)
Theorem get_projects_first_page_only (fuel : nat) (w : world) :
  exists r w',
    get_projects (S fuel) api account_id false w = Some (r, w') /\
    trace w' = (trace w ++ [EvHttp (page_rq 1) (net w 0%nat)])%list /\
    (forall records more, page_of (net w 0%nat) records more -> r = Ok records).
Proof.
  unfold get_projects. cbn [get_projects_loop].
  destruct (get_projects_body api account_id false 1 [] w) as [r w'] eqn:Hbody.
  assert (Htrace : trace w' = (trace w ++ [EvHttp (page_rq 1) (net w 0%nat)])%list
                   /\ forall all, r <> Ok (Continue all)).
  { revert Hbody. unfold get_projects_body, bind.
    rewrite api_get_send with (1 := Hcred). unfold page_request, send.
    destruct (net w 0%nat) as [|resp]; cbn.
    - intros [= <- <-]. split; [reflexivity | discriminate].
    - unfold checked_json, raise_for_status, response_json, bind, raise, ret, lift.
      destruct (is_error_status (status_code resp)); cbn;
        [intros [= <- <-]; split; [reflexivity | discriminate] |].
      destruct (content resp) as [projects|]; cbn;
        [| intros [= <- <-]; split; [reflexivity | discriminate]].
      destruct (Py.truthy projects); cbn;
        [| intros [= <- <-]; split; [reflexivity | discriminate]].
      destruct (Py.iter projects) as [items|e]; cbn;
        intros [= <- <-]; split; try reflexivity; discriminate. }
  destruct Htrace as [Htrace Hnc].
  assert (Hpage : forall records more,
             page_of (net w 0%nat) records more ->
             r = Ok (Break records)).
  { intros records more Hp.
    rewrite get_projects_body_page with (1 := Hp) in Hbody.
    destruct records; cbn in Hbody; now inversion Hbody. }
  destruct r as [[all|all]|e].
  - exists (Ok all), w'. repeat split; [exact Htrace|].
    intros records more Hp. specialize (Hpage _ _ Hp). now inversion Hpage.
  - now destruct (Hnc all).
  - exists (Raise e), w'. repeat split; [exact Htrace|].
    intros records more Hp. specialize (Hpage _ _ Hp). discriminate.
Qed.

(** C2.  With [get_all] true, when the first [List.length pages] answers
    are non-empty pages whose [Link] header holds [rel="next"] and the
    following answer is a page that is empty or lacks that relation,
    [get_projects] returns the records of all these pages in order, and
    has sent exactly the requests for pages 1, 2, ... up to that last
    page, in that order.  An empty first page ends the run in the same
    way when [get_all] is false. *)
Theorem get_projects_follows_next (pages : list (list json)) (last : list json)
    (fuel : nat) (w : world) :
  (forall i, (i < List.length pages)%nat ->
             nth i pages [] <> [] /\ page_of (net w i) (nth i pages []) true) ->
  (exists more, page_of (net w (List.length pages)) last more /\
                (last = [] \/ more = false)) ->
  (List.length pages < fuel)%nat ->
  exists w',
    get_projects fuel api account_id true w
    = Some (Ok (List.concat pages ++ last)%list, w') /\
    http_events (trace w')
    = (http_events (trace w)
       ++ map (fun i => (page_rq (1 + Z.of_nat i), net w i))
              (seq 0 (S (List.length pages))))%list /\
    (pages = [] -> last = [] ->
     get_projects fuel api account_id false w = Some (Ok [], w')).
Proof.
  intros Hpages Hlast Hfuel.
  destruct (get_projects_loop_pages last pages w 1 [] fuel Hpages Hlast Hfuel)
    as (w' & Hrun & Htr).
  exists w'. repeat split; [exact Hrun | exact Htr |].
  intros -> ->. destruct Hlast as (more & Hpage & _).
  destruct fuel as [|fuel]; [cbn in Hfuel; lia|].
  unfold get_projects in *. cbn [get_projects_loop List.length] in *.
  rewrite get_projects_body_page with (1 := Hpage) in Hrun.
  rewrite get_projects_body_page with (1 := Hpage).
  now inversion Hrun.
Qed.

End Pagination.

(** ** Dock lookups *)

Lemma scan_dock_none (tool : string) (items : list json) :
  Forall (fun item => dock_entry tool item false) items ->
  scan_dock tool items = Ok None.
Proof.
  induction 1 as [|item items (d & -> & Hname) _ IH]; [reflexivity|].
  cbn. destruct (Dict.get "name" d) as [v|]; cbn.
  - now rewrite Hname.
  - exact IH.
Qed.

Lemma scan_dock_first (tool : string) (before after : list json) (d : dict) :
  Forall (fun item => dock_entry tool item false) before ->
  dock_entry tool (JObj d) true ->
  scan_dock tool (before ++ JObj d :: after) = Ok (Some (id_of d)).
Proof.
  intros Hbefore (d' & [= <-] & Hname).
  induction Hbefore as [|item items (e & -> & Hno) _ IH]; cbn.
  - destruct (Dict.get "name" d) as [v|]; [|discriminate]. cbn.
    rewrite Hname. unfold id_of. now destruct (Dict.get "id" d).
  - destruct (Dict.get "name" e) as [v|]; cbn.
    + now rewrite Hno.
    + exact IH.
Qed.

Lemma find_in_dock_none (tool : string) (project : dict) :
  lacks_tool tool project ->
  find_in_dock tool (JObj project) = Ok None.
Proof.
  unfold find_in_dock. cbn. unfold Dict.mem.
  intros [Hno | (items & Hdock & Hitems)].
  - now rewrite Hno.
  - rewrite Hdock. cbn. now apply scan_dock_none.
Qed.

Lemma find_in_dock_first (tool : string) (project d : dict) :
  first_tool tool project d ->
  find_in_dock tool (JObj project) = Ok (Some (id_of d)).
Proof.
  intros (before & after & Hdock & Hbefore & Hd).
  unfold find_in_dock. cbn. unfold Dict.mem. rewrite Hdock. cbn.
  now apply scan_dock_first.
Qed.

Section Dock.

Variables (api : BasecampAPI) (account_id project_id tok : json).
Hypothesis Hcred : has_access_token api tok.

Local Abbreviation project_rq := (project_request api account_id project_id tok).

Lemma get_project_world (w : world) :
  snd (get_project api account_id project_id w) = sent project_rq w.
Proof.
  unfold get_project, bind. rewrite api_get_send with (1 := Hcred).
  unfold sent, project_request, send.
  destruct (net w 0%nat) as [|r]; [reflexivity|]. cbn.
  unfold checked_json, raise_for_status, response_json, bind, raise, ret.
  destruct (is_error_status (status_code r)); [reflexivity|]. cbn.
  now destruct (content r).
Qed.

Lemma get_project_ok (project : dict) (w : world) :
  project_of (net w 0%nat) project ->
  get_project api account_id project_id w
  = (Ok (JObj project), sent project_rq w).
Proof.
  intros (r & Hnet & Hst & Hbody).
  unfold get_project, bind. rewrite api_get_send with (1 := Hcred).
  unfold sent, project_request, send. rewrite Hnet. cbn.
  unfold checked_json, raise_for_status, response_json, bind, ret.
  rewrite Hst. cbn. now rewrite Hbody.
Qed.

Lemma get_todoset_world (w : world) :
  snd (get_todoset api account_id project_id w) = sent project_rq w.
Proof.
  rewrite <- get_project_world. unfold get_todoset, bind, lift.
  destruct (get_project api account_id project_id w) as [[project|e] w'];
    [|reflexivity].
  destruct (find_in_dock "todoset" project) as [[id|]|e]; reflexivity.
Qed.

Lemma get_campfire_world (w : world) :
  snd (get_campfire api account_id project_id w) = sent project_rq w.
Proof.
  rewrite <- get_project_world. unfold get_campfire, bind, lift.
  destruct (get_project api account_id project_id w) as [[project|e] w'];
    [|reflexivity].
  destruct (find_in_dock "chat" project) as [[id|]|e]; reflexivity.
Qed.

(** C6.  [get_todoset] and [get_campfire] fetch the project on every
    call: whatever the world, the call leaves it with exactly the
    project request sent.  On a project whose dock is absent or has no
    entry named after the tool they raise the not-found error of the
    tool; otherwise they return the [id] of the first such entry. *)
Theorem dock_lookup_scans_fresh_project (project : dict) (w : world) :
  project_of (net w 0%nat) project ->
  (forall w0, snd (get_todoset api account_id project_id w0) = sent project_rq w0
              /\ snd (get_campfire api account_id project_id w0)
                 = sent project_rq w0) /\
  (lacks_tool "todoset" project ->
   get_todoset api account_id project_id w
   = (Raise (ValueError no_todoset_msg), sent project_rq w)) /\
  (lacks_tool "chat" project ->
   get_campfire api account_id project_id w
   = (Raise (ValueError no_campfire_msg), sent project_rq w)) /\
  (forall d, first_tool "todoset" project d ->
             get_todoset api account_id project_id w
             = (Ok (id_of d), sent project_rq w)) /\
  (forall d, first_tool "chat" project d ->
             get_campfire api account_id project_id w
             = (Ok (id_of d), sent project_rq w)).
Proof.
  intros Hproject.
  split; [intros w0; split; [apply get_todoset_world | apply get_campfire_world]|].
  unfold get_todoset, get_campfire, bind, lift.
  rewrite get_project_ok with (1 := Hproject).
  repeat split.
  - intros H. now rewrite find_in_dock_none.
  - intros H. now rewrite find_in_dock_none.
  - intros d H. now rewrite find_in_dock_first with (1 := H).
  - intros d H. now rewrite find_in_dock_first with (1 := H).
Qed.

End Dock.

(** ** Dictionaries *)

Lemma dict_get_set_same (k : string) (v : json) (d : dict) :
  Dict.get k (Dict.set k v d) = Some v.
Proof.
  induction d as [|[k' v'] d IH]; cbn.
  - now rewrite String.eqb_refl.
  - destruct (String.eqb k k') eqn:E; cbn; now rewrite E.
Qed.

Lemma dict_get_set_other (k k' : string) (v : json) (d : dict) :
  k <> k' ->
  Dict.get k (Dict.set k' v d) = Dict.get k d.
Proof.
  intros Hne. induction d as [|[k0 v0] d IH]; cbn.
  - destruct (String.eqb_spec k k'); [contradiction | reflexivity].
  - destruct (String.eqb_spec k' k0) as [->|Hk]; cbn.
    + destruct (String.eqb_spec k k0); [contradiction | reflexivity].
    + destruct (String.eqb_spec k k0); [reflexivity | exact IH].
Qed.

(** ** Token refresh *)

Section Refresh.

Variable auth : BasecampAuth.

(** The credential [refresh_token] builds from the old refresh token [rt]
    and the answer [new] read at time [now]. *)
Lemma refresh_token_ok (old new : dict) (rt : json) (w : world) :
  Dict.get "refresh_token" old = Some rt ->
  answers (net w 0%nat) (JObj new) ->
  disk w 0%nat = true ->
  let stamped := Dict.set "obtained_at" (JInt (clock w 0%nat)) new in
  let saved := if Dict.mem "refresh_token" stamped
               then stamped else Dict.set "refresh_token" rt stamped in
  exists w',
    refresh_token auth (JObj old) w = (Ok (JObj saved), w') /\
    token_file w' = Some (JObj saved) /\
    trace w' = (trace w ++ [EvHttp (refresh_request auth rt) (net w 0%nat);
                            EvTime (clock w 0%nat);
                            EvSave (JObj saved) true])%list.
Proof.
  intros Hrt (r & Hnet & Hst & Hbody) Hdisk stamped saved.
  unfold refresh_token, bind, lift. cbn. unfold Dict.mem. rewrite Hrt. cbn.
  unfold send. rewrite Hnet. cbn.
  unfold checked_json, raise_for_status, response_json, bind, ret.
  rewrite Hst. cbn. rewrite Hbody. cbn.
  fold stamped. subst saved.
  destruct (Dict.mem "refresh_token" stamped); cbn;
    unfold lift, save_token; cbn; rewrite Hdisk; cbn;
    eexists; repeat split; now rewrite <- !app_assoc.
Qed.

(** Every way [refresh_token] can end.  When it returns, the credential
    is the one written to the token file, stamped with the clock reading
    taken after the answer came in; when it raises, either the file is
    as it was or the write of the stamped credential failed. *)
Lemma refresh_token_inv (tok : json) (w : world) (r : result json) (w' : world) :
  refresh_token auth tok w = (r, w') ->
  match r with
  | Ok cred =>
      exists rt resp d,
        net w 0%nat = NetResp resp /\
        cred = JObj d /\
        Dict.get "obtained_at" d = Some (JInt (clock w 0%nat)) /\
        token_file w' = Some cred /\
        trace w' = (trace w ++ [EvHttp (refresh_request auth rt) (NetResp resp);
                                EvTime (clock w 0%nat);
                                EvSave cred true])%list
  | Raise e => token_file w' = token_file w \/ stamped_write_failed w w'
  end.
Proof.
  unfold refresh_token, bind, lift.
  destruct (Py.contains "refresh_token" tok) as [has|e];
    [|intros [= <- <-]; now left].
  destruct has; cbn [negb]; [|intros [= <- <-]; now left].
  destruct (Py.getitem tok "refresh_token") as [rt|e];
    [|intros [= <- <-]; now left].
  unfold send. destruct (net w 0%nat) as [|resp] eqn:Hnet; cbn;
    [intros [= <- <-]; now left|].
  unfold checked_json, raise_for_status, response_json, bind, raise, ret.
  destruct (is_error_status (status_code resp)); cbn;
    [intros [= <- <-]; now left|].
  destruct (content resp) as [new|]; cbn; [|intros [= <- <-]; now left].
  destruct (Py.setitem new "obtained_at" (JInt (clock w 0%nat))) as [stamped|e] eqn:Hset;
    cbn; [|intros [= <- <-]; now left].
  destruct new; try discriminate Hset. cbn in Hset. injection Hset as <-.
  cbn.
  destruct (Dict.mem "refresh_token" _); cbn;
    unfold save_token; cbn; destruct (disk w 0%nat) eqn:Hdisk; cbn;
    intros [= <- <-]; cbn.
  - exists rt, resp. eexists. repeat split.
    + apply dict_get_set_same.
    + now rewrite <- !app_assoc.
  - right. exists (Dict.set "obtained_at" (JInt (clock w 0%nat)) fields),
             (refresh_request auth rt), resp, (trace w).
    split; [exact Hnet|]. split; [exact Hdisk|].
    split; [apply dict_get_set_same|].
    split; [reflexivity | now rewrite <- !app_assoc].
  - exists rt, resp. eexists. repeat split.
    + rewrite dict_get_set_other by (intros [=]). apply dict_get_set_same.
    + now rewrite <- !app_assoc.
  - right. exists (Dict.set "refresh_token" rt
                          (Dict.set "obtained_at" (JInt (clock w 0%nat)) fields)),
             (refresh_request auth rt), resp, (trace w).
    split; [exact Hnet|]. split; [exact Hdisk|].
    split; [(rewrite dict_get_set_other by (intros [=])); apply dict_get_set_same|].
    split; [reflexivity | now rewrite <- !app_assoc].
Qed.

(** The same for [login]. *)
Lemma login_inv (w : world) (r : result json) (w' : world) :
  login auth w = (r, w') ->
  match r with
  | Ok cred =>
      exists line resp d,
        stdin w 0%nat = Some line /\
        net w 0%nat = NetResp resp /\
        cred = JObj d /\
        Dict.get "obtained_at" d = Some (JInt (clock w 0%nat)) /\
        token_file w' = Some cred /\
        trace w'
        = (trace w
           ++ [EvBrowser (auth_params auth);
               EvInput (Some line);
               EvHttp (login_request auth (extract_auth_code (PyStr.strip line)))
                      (NetResp resp);
               EvTime (clock w 0%nat);
               EvSave cred true])%list
  | Raise e => token_file w' = token_file w \/ stamped_write_failed w w'
  end.
Proof.
  unfold login, bind, lift, open_browser, input. cbn.
  destruct (stdin w 0%nat) as [line|]; cbn; [|intros [= <- <-]; now left].
  destruct (String.eqb (extract_auth_code (PyStr.strip line)) EmptyString);
    [intros [= <- <-]; now left|].
  unfold send. cbn. destruct (net w 0%nat) as [|resp] eqn:Hnet; cbn;
    [intros [= <- <-]; now left|].
  unfold checked_json, raise_for_status, response_json, bind, raise, ret.
  destruct (is_error_status (status_code resp)); cbn;
    [intros [= <- <-]; now left|].
  destruct (content resp) as [new|]; cbn; [|intros [= <- <-]; now left].
  destruct new; cbn; try (intros [= <- <-]; now left).
  unfold save_token; cbn. destruct (disk w 0%nat) eqn:Hdisk; cbn;
    intros [= <- <-]; cbn.
  - exists line, resp. eexists. repeat split.
    + apply dict_get_set_same.
    + now rewrite <- !app_assoc.
  - right. exists (Dict.set "obtained_at" (JInt (clock w 0%nat)) fields),
             (login_request auth (extract_auth_code (PyStr.strip line))), resp,
             (trace w ++ [EvBrowser (auth_params auth); EvInput (Some line)])%list.
    split; [exact Hnet|]. split; [exact Hdisk|].
    split; [apply dict_get_set_same|].
    split; [reflexivity | now rewrite <- !app_assoc].
Qed.

(** C3.  When the token endpoint answers a refresh with an object that
    has no [refresh_token], the credential returned and written to the
    token file holds the refresh token of the credential being refreshed,
    the new [obtained_at], and for every other key what the answer
    holds. *)
Theorem refresh_carries_refresh_token_forward (old new : dict) (rt : json)
    (w : world) :
  Dict.get "refresh_token" old = Some rt ->
  answers (net w 0%nat) (JObj new) ->
  Dict.get "refresh_token" new = None ->
  disk w 0%nat = true ->
  exists saved w',
    refresh_token auth (JObj old) w = (Ok (JObj saved), w') /\
    token_file w' = Some (JObj saved) /\
    Dict.get "refresh_token" saved = Some rt /\
    Dict.get "obtained_at" saved = Some (JInt (clock w 0%nat)) /\
    forall k, k <> "refresh_token" -> k <> "obtained_at" ->
              Dict.get k saved = Dict.get k new.
Proof.
  intros Hrt Hans Hnone Hdisk.
  destruct (refresh_token_ok old new rt w Hrt Hans Hdisk) as (w' & Hrun & Hfile & _).
  unfold Dict.mem in Hrun, Hfile.
  rewrite dict_get_set_other, Hnone in Hrun, Hfile by (intros [=]).
  exists (Dict.set "refresh_token" rt
            (Dict.set "obtained_at" (JInt (clock w 0%nat)) new)), w'.
  split; [exact Hrun|]. split; [exact Hfile|]. split; [|split].
  - apply dict_get_set_same.
  - rewrite dict_get_set_other by (intros [=]). apply dict_get_set_same.
  - intros k Hk1 Hk2. now rewrite !dict_get_set_other.
Qed.

(** C8.  Whatever [login] or [refresh_token] leaves in the token file is
    stamped locally.  When the call returns, the credential returned has
    been written to the file with [obtained_at] equal to the reading of
    the local clock taken right after the token answer arrived, whatever
    that answer holds.  When it raises, the file is as it was, or the
    write of the credential so stamped has failed, which leaves the file
    as it was, unreadable, or holding that credential.  In every case a
    credential found in the file after the call and not there before has
    that [obtained_at]. *)
Theorem obtained_at_is_local_time (tok : json) (w : world) (r : result json)
    (w' : world) :
  login auth w = (r, w') \/ refresh_token auth tok w = (r, w') ->
  match r with
  | Ok cred =>
      exists d rq resp before,
        cred = JObj d /\
        token_file w' = Some cred /\
        Dict.get "obtained_at" d = Some (JInt (clock w 0%nat)) /\
        net w 0%nat = NetResp resp /\
        trace w' = (before ++ [EvHttp rq (NetResp resp);
                               EvTime (clock w 0%nat);
                               EvSave cred true])%list
  | Raise e => token_file w' = token_file w \/ stamped_write_failed w w'
  end /\
  (forall cred,
      token_file w' = Some cred ->
      token_file w' <> token_file w ->
      exists d, cred = JObj d /\
                Dict.get "obtained_at" d = Some (JInt (clock w 0%nat))).
Proof.
  intros Hrun.
  assert (Hcases :
    match r with
    | Ok cred =>
        exists d rq resp before,
          cred = JObj d /\
          token_file w' = Some cred /\
          Dict.get "obtained_at" d = Some (JInt (clock w 0%nat)) /\
          net w 0%nat = NetResp resp /\
          trace w' = (before ++ [EvHttp rq (NetResp resp);
                                 EvTime (clock w 0%nat);
                                 EvSave cred true])%list
    | Raise e => token_file w' = token_file w \/ stamped_write_failed w w'
    end).
  { destruct Hrun as [Hrun | Hrun].
    - apply login_inv in Hrun. destruct r as [cred|e]; [|exact Hrun].
      destruct Hrun as (line & resp & d & _ & Hnet & -> & Hoa & Hfile & Htr).
      exists d. eexists. exists resp. eexists.
      repeat split; [exact Hfile | exact Hoa | exact Hnet |].
      rewrite Htr.
      change (?a :: ?b :: ?rest) with ([a; b] ++ rest)%list.
      now rewrite app_assoc.
    - apply refresh_token_inv in Hrun. destruct r as [cred|e]; [|exact Hrun].
      destruct Hrun as (rt & resp & d & Hnet & -> & Hoa & Hfile & Htr).
      exists d. eexists. exists resp, (trace w).
      repeat split; [exact Hfile | exact Hoa | exact Hnet | exact Htr]. }
  split; [exact Hcases|].
  intros cred Hfile Hchanged. destruct r as [cred'|e].
  - destruct Hcases as (d & _ & _ & _ & -> & Hsaved & Hoa & _).
    exists d. split; [congruence | exact Hoa].
  - destruct Hcases as [Hsame | (d & _ & _ & _ & _ & _ & Hoa & Hafter & _)];
      [contradiction|].
    exists d. split; [|exact Hoa].
    destruct (fault w 0%nat); cbn in Hafter; congruence.
Qed.

End Refresh.

(** ** Expiry and transparent refresh *)

Section Lifecycle.

Variable auth : BasecampAuth.

Lemma ticked_trace (w : world) :
  trace (ticked w) = (trace w ++ [EvTime (clock w 0%nat)])%list.
Proof. reflexivity. Qed.

Lemma ticked_http_events (w : world) :
  http_events (trace (ticked w)) = http_events (trace w).
Proof. rewrite ticked_trace, http_events_app. cbn. now rewrite app_nil_r. Qed.

(** [get_valid_token] on a stored credential that counts as present. *)
Lemma get_valid_token_run (tok : json) (w : world) :
  token_file w = Some tok ->
  Py.truthy tok = true ->
  get_valid_token auth w
  = match token_expired (clock w 0%nat) tok with
    | Raise e => (Raise e, ticked w)
    | Ok true =>
        match refresh_token auth tok (ticked w) with
        | (Ok cred, w') => (Ok cred, w')
        | (Raise _, w') => (Ok JNull, w')
        end
    | Ok false => (Ok tok, ticked w)
    end.
Proof.
  intros Hfile Htruthy.
  unfold get_valid_token, bind, load_token, lift. rewrite Hfile, Htruthy. cbn.
  fold (ticked w).
  now destruct (token_expired (clock w 0%nat) tok) as [[|]|e].
Qed.




Lemma refresh_token_no_refresh (d : dict) (w : world) :
  Dict.get "refresh_token" d = None ->
  refresh_token auth (JObj d) w = (Raise (ValueError no_refresh_msg), w).
Proof.
  intros Hrt. unfold refresh_token, bind, lift. cbn. unfold Dict.mem.
  now rewrite Hrt.
Qed.

Lemma refresh_token_net_fail (d : dict) (rt : json) (w : world) :
  Dict.get "refresh_token" d = Some rt ->
  net w 0%nat = NetFail ->
  refresh_token auth (JObj d) w
  = (Raise ConnectionError, sent (refresh_request auth rt) w).
Proof.
  intros Hrt Hnet. unfold refresh_token, bind, lift. cbn. unfold Dict.mem.
  rewrite Hrt. cbn. unfold sent, send. now rewrite Hnet.
Qed.

Lemma refresh_token_http_error (d : dict) (rt : json) (resp : response) (w : world) :
  Dict.get "refresh_token" d = Some rt ->
  net w 0%nat = NetResp resp ->
  is_error_status (status_code resp) = true ->
  refresh_token auth (JObj d) w
  = (Raise (HTTPError (status_code resp)), sent (refresh_request auth rt) w).
Proof.
  intros Hrt Hnet Hst. unfold refresh_token, bind, lift. cbn. unfold Dict.mem.
  rewrite Hrt. cbn. unfold sent, send. rewrite Hnet. cbn.
  unfold checked_json, raise_for_status, bind, raise. now rewrite Hst.
Qed.

(** C4.  For a stored credential that the expiry test finds stale,
    whatever error the refresh raises, [get_valid_token] returns [None]
    and never raises.  In particular it returns [None] when the
    credential has no refresh token, when the call to the token endpoint
    fails, and when the endpoint answers with a 4xx or 5xx status. *)
Theorem failed_refresh_gives_no_credential (d : dict) (w : world) :
  token_file w = Some (JObj d) ->
  d <> [] ->
  token_expired (clock w 0%nat) (JObj d) = Ok true ->
  (forall e w', refresh_token auth (JObj d) (ticked w) = (Raise e, w') ->
                get_valid_token auth w = (Ok JNull, w')) /\
  (forall e w', get_valid_token auth w <> (Raise e, w')) /\
  (Dict.get "refresh_token" d = None ->
   get_valid_token auth w = (Ok JNull, ticked w)) /\
  (forall rt, Dict.get "refresh_token" d = Some rt ->
              net w 0%nat = NetFail ->
              get_valid_token auth w
              = (Ok JNull, sent (refresh_request auth rt) (ticked w))) /\
  (forall rt resp, Dict.get "refresh_token" d = Some rt ->
                   net w 0%nat = NetResp resp ->
                   is_error_status (status_code resp) = true ->
                   get_valid_token auth w
                   = (Ok JNull, sent (refresh_request auth rt) (ticked w))).
Proof.
  intros Hfile Hne Hstale.
  assert (Htruthy : Py.truthy (JObj d) = true) by (now destruct d).
  pose proof (get_valid_token_run (JObj d) w Hfile Htruthy) as Hrun.
  rewrite Hstale in Hrun.
  split; [|split; [|split; [|split]]].
  - intros e w' Hraise. now rewrite Hrun, Hraise.
  - intros e w' Heq. rewrite Hrun in Heq.
    destruct (refresh_token auth (JObj d) (ticked w)) as [[cred|e'] w1];
      discriminate Heq.
  - intros Hrt. now rewrite Hrun, refresh_token_no_refresh.
  - intros rt Hrt Hnet.
    now rewrite Hrun, (refresh_token_net_fail d rt (ticked w) Hrt Hnet).
  - intros rt resp Hrt Hnet Hst.
    now rewrite Hrun, (refresh_token_http_error d rt resp (ticked w) Hrt Hnet Hst).
Qed.

(** C10, as the code has it.  A credential without [obtained_at] is
    tested as if it held [obtained_at = 0], and one without [expires_in]
    as if it held [expires_in = 7200]; with the other field an integer or
    missing too the test raises nothing.  With [obtained_at] missing the
    credential is stale exactly when the clock is beyond
    [expires_in - 300]; when it is not, [get_valid_token] returns the
    stored credential. *)
Theorem missing_expiry_fields_default (d : dict) (w : world) :
  let now := clock w 0%nat in
  (Dict.get "obtained_at" d = None ->
   token_expired now (JObj d)
   = token_expired now (JObj (Dict.set "obtained_at" (JInt 0) d))) /\
  (Dict.get "expires_in" d = None ->
   token_expired now (JObj d)
   = token_expired now (JObj (Dict.set "expires_in" (JInt 7200) d))) /\
  (Dict.get "obtained_at" d = None ->
   forall ei, Dict.get "expires_in" d = Some (JInt ei) ->
              token_expired now (JObj d) = Ok (now >? ei - 300)) /\
  (Dict.get "expires_in" d = None ->
   forall oa, Dict.get "obtained_at" d = Some (JInt oa) ->
              token_expired now (JObj d) = Ok (now - oa >? 6900)) /\
  (Dict.get "obtained_at" d = None -> Dict.get "expires_in" d = None ->
   token_expired now (JObj d) = Ok (now >? 6900)) /\
  (Dict.get "obtained_at" d = None ->
   forall ei, Dict.get "expires_in" d = Some (JInt ei) ->
              now <= ei - 300 ->
              token_file w = Some (JObj d) ->
              get_valid_token auth w = (Ok (JObj d), ticked w)).
Proof.
  intros now.
  assert (Hoa0 : forall ei, Dict.get "obtained_at" d = None ->
                            Dict.get "expires_in" d = Some (JInt ei) ->
                            token_expired now (JObj d) = Ok (now >? ei - 300)).
  { intros ei Hoa Hei. unfold token_expired. cbn. rewrite Hoa, Hei. cbn.
    now rewrite Z.sub_0_r. }
  split; [|split; [|split; [|split; [|split]]]].
  - intros Hoa. unfold token_expired. cbn.
    rewrite Hoa, dict_get_set_same, dict_get_set_other by (intros [=]).
    reflexivity.
  - intros Hei. unfold token_expired. cbn.
    rewrite Hei, dict_get_set_same, dict_get_set_other by (intros [=]).
    reflexivity.
  - intros Hoa ei Hei. now apply Hoa0.
  - intros Hei oa Hoa. unfold token_expired. cbn. now rewrite Hoa, Hei.
  - intros Hoa Hei. unfold token_expired. cbn. rewrite Hoa, Hei. cbn.
    now rewrite Z.sub_0_r.
  - intros Hoa ei Hei Hfresh Hfile.
    assert (Htruthy : Py.truthy (JObj d) = true).
    { destruct d; [discriminate Hei | reflexivity]. }
    rewrite (get_valid_token_run (JObj d) w Hfile Htruthy).
    fold now. rewrite (Hoa0 ei Hoa Hei).
    assert (Hcmp : (now >? ei - 300) = false)
      by (rewrite Z.gtb_ltb; apply Z.ltb_ge; lia).
    now rewrite Hcmp.
Qed.

End Lifecycle.

(** ** Splitting strings *)

Lemma append_nil_r (s : string) : s ++ EmptyString = s.
Proof. induction s as [|c s IH]; cbn; [reflexivity | now rewrite IH]. Qed.

Lemma append_assoc (s t u : string) : (s ++ t) ++ u = s ++ t ++ u.
Proof. induction s as [|c s IH]; cbn; [reflexivity | now rewrite IH]. Qed.

Lemma prefix_append (sep x : string) : prefix sep (sep ++ x) = true.
Proof.
  induction sep as [|c sep IH]; cbn; [now destruct x|].
  destruct (ascii_dec c c); [exact IH | contradiction].
Qed.

Lemma contains_prefix (sep s : string) :
  prefix sep s = true -> PyStr.contains sep s = true.
Proof. intros H. destruct s; cbn [PyStr.contains]; now rewrite H. Qed.

Lemma contains_append (sep b x : string) :
  PyStr.contains sep (b ++ sep ++ x) = true.
Proof.
  induction b as [|c b IH].
  - change (EmptyString ++ sep ++ x) with (sep ++ x).
    apply contains_prefix, prefix_append.
  - cbn [append PyStr.contains]. rewrite IH.
    now destruct (prefix sep (String c (b ++ sep ++ x))).
Qed.

Lemma contains_false_inv (sep : string) (c : ascii) (s : string) :
  PyStr.contains sep (String c s) = false ->
  prefix sep (String c s) = false /\ PyStr.contains sep s = false.
Proof.
  cbn [PyStr.contains]. destruct (prefix sep (String c s)); [discriminate|].
  now split.
Qed.

(** The characters of a matched separator are dropped. *)
Lemma split_go_skip (sep a x cur : string) :
  PyStr.split_go sep (a ++ x) (String.length a) cur = PyStr.split_go sep x 0 cur.
Proof. induction a as [|c a IH]; cbn; [reflexivity | exact IH]. Qed.

(** The piece under construction is a prefix of the first piece. *)
Lemma split_go_cur (sep s : string) :
  forall (k : nat) (cur : string),
    PyStr.split_go sep s k cur
    = match PyStr.split_go sep s k EmptyString with
      | p :: ps => (cur ++ p) :: ps
      | [] => [cur]
      end.
Proof.
  induction s as [|c s IH]; intros k cur; cbn [PyStr.split_go].
  - now rewrite append_nil_r.
  - destruct k as [|k]; [|apply IH].
    destruct (prefix sep (String c s)).
    + now rewrite append_nil_r.
    + rewrite (IH 0%nat (cur ++ String c EmptyString)).
      rewrite (IH 0%nat (EmptyString ++ String c EmptyString)).
      destruct (PyStr.split_go sep s 0 EmptyString) as [|p ps];
        [reflexivity|].
      now rewrite append_assoc.
Qed.

(** Where no separator starts, the scan only gathers characters. *)
Lemma split_go_gather (sep a y : string) :
  forall cur, no_match_in sep a y ->
              PyStr.split_go sep (a ++ y) 0 cur = PyStr.split_go sep y 0 (cur ++ a).
Proof.
  induction a as [|c a IH]; intros cur Hno.
  - cbn. now rewrite append_nil_r.
  - cbn [append PyStr.split_go].
    assert (Hp : prefix sep (String c a ++ y) = false)
      by (apply (Hno EmptyString (String c a) eq_refl); discriminate).
    cbn [append] in Hp. rewrite Hp, IH.
    + now rewrite append_assoc.
    + intros a1 a2 -> Ha2. apply (Hno (String c a1) a2); [reflexivity | exact Ha2].
Qed.

(** A match of [sep] against [b ++ y] lies within [b], or ends in [y]. *)
Lemma prefix_append_inv (sep : string) :
  forall b y, prefix sep (b ++ y) = true ->
              prefix sep b = true \/
              exists q, sep = b ++ q /\ q <> EmptyString /\ prefix q y = true.
Proof.
  induction sep as [|a sep IH]; intros b y H.
  - left. now destruct b.
  - destruct b as [|c b].
    + right. exists (String a sep). cbn [append] in *.
      repeat split; [discriminate | exact H].
    + cbn [append prefix] in *.
      destruct (ascii_dec a c) as [->|]; [|discriminate].
      destruct (IH b y H) as [Hin | (q & -> & Hq & Hpre)]; [now left|].
      right. exists q. now repeat split.
Qed.

Lemma no_match_in_intro (sep a y : string) :
  PyStr.contains sep a = false ->
  no_overlap sep y ->
  no_match_in sep a y.
Proof.
  intros Hc Hov. induction a as [|c a IH]; intros a1 a2 Heq Hne.
  - destruct a1; [|discriminate]. cbn in Heq. now subst.
  - apply contains_false_inv in Hc. destruct Hc as [Hpre Hc].
    destruct a1 as [|c1 a1]; cbn [append] in Heq.
    + subst a2.
      destruct (prefix sep (String c a ++ y)) eqn:E; [|reflexivity].
      destruct (prefix_append_inv sep _ _ E) as [Hin | (q & Hsep & Hq & Hqy)];
        [congruence|].
      rewrite (Hov (String c a) q Hsep) in Hqy by (discriminate || exact Hq).
      discriminate.
    + injection Heq as _ Heq. now apply (IH Hc a1 a2).
Qed.

(** Without an occurrence of the separator there is one piece. *)
Lemma split_go_whole (sep s cur : string) :
  PyStr.contains sep s = false ->
  PyStr.split_go sep s 0 cur = [cur ++ s].
Proof.
  revert cur. induction s as [|c s IH]; intros cur Hc.
  - cbn. now rewrite append_nil_r.
  - apply contains_false_inv in Hc. destruct Hc as [Hpre Hc].
    cbn [PyStr.split_go]. rewrite Hpre, IH by exact Hc.
    now rewrite append_assoc.
Qed.

(** The separators of [login] do not overlap what follows them here. *)
Lemma no_overlap_code (c : ascii) (y : string) :
  c = "?"%char \/ c = "&"%char ->
  no_overlap "?code=" (String c y).
Proof.
  intros Hc p q H Hp Hq.
  destruct p as [|c1 p]; [contradiction|].
  cbn [append] in H. injection H as <- H.
  do 5 (destruct p as [|? p]; cbn [append] in H;
        [subst q; destruct Hc as [-> | ->]; reflexivity | injection H as <- H]).
  destruct p; cbn [append] in H; [subst q; contradiction | discriminate].
Qed.

Lemma no_overlap_amp (y : string) : no_overlap "&" y.
Proof.
  intros p q H Hp Hq.
  destruct p as [|c1 p]; [contradiction|].
  cbn [append] in H. injection H as <- H.
  destruct p; cbn [append] in H; [subst q; contradiction | discriminate].
Qed.

Lemma split_go_code_here (x cur : string) :
  PyStr.split_go "?code=" ("?code=" ++ x) 0 cur
  = cur :: PyStr.split_go "?code=" x 0 EmptyString.
Proof. now destruct x. Qed.

Lemma split_go_amp_here (x cur : string) :
  PyStr.split_go "&" ("&" ++ x) 0 cur = cur :: PyStr.split_go "&" x 0 EmptyString.
Proof. now destruct x. Qed.

Lemma split_amp_first (code y : string) :
  PyStr.contains "&" code = false ->
  nth 0 (PyStr.split "&" (code ++ "&" ++ y)) EmptyString = code.
Proof.
  intros Hc. unfold PyStr.split.
  rewrite split_go_gather
    by (apply no_match_in_intro; [exact Hc | apply no_overlap_amp]).
  now rewrite split_go_amp_here.
Qed.

(** The code out of a redirect URL: what stands between the first
    [?code=] and the next [&]. *)
Lemma extract_auth_code_url (base code rest : string) :
  PyStr.contains "?code=" base = false ->
  PyStr.contains "?code=" code = false ->
  PyStr.contains "&" code = false ->
  rest = EmptyString \/ (exists r, rest = "&" ++ r) ->
  extract_auth_code (base ++ "?code=" ++ code ++ rest) = code.
Proof.
  intros Hbase Hcode Hamp Hrest.
  unfold extract_auth_code. rewrite contains_append. unfold PyStr.split at 2.
  rewrite split_go_gather
    by (apply no_match_in_intro;
        [exact Hbase | apply (no_overlap_code "?"); now left]).
  rewrite split_go_code_here. cbn [nth].
  destruct Hrest as [-> | (r & ->)].
  - rewrite append_nil_r, split_go_whole by exact Hcode. cbn [nth append].
    unfold PyStr.split. now rewrite split_go_whole by exact Hamp.
  - rewrite split_go_gather
      by (apply no_match_in_intro;
          [exact Hcode | apply (no_overlap_code "&"); now right]).
    cbn [append]. change (PyStr.split_go "?code=" (String "&" r) 0 code)
      with (PyStr.split_go "?code=" r 0 (code ++ "&")).
    rewrite split_go_cur.
    destruct (PyStr.split_go "?code=" r 0 EmptyString) as [|p ps]; cbn [nth].
    + rewrite <- (append_nil_r (code ++ "&")), append_assoc.
      now apply split_amp_first.
    + rewrite append_assoc. now apply split_amp_first.
Qed.

(** A second [?code=] ends the code like an [&] does. *)
Lemma extract_auth_code_url_twice (base code r : string) :
  PyStr.contains "?code=" base = false ->
  PyStr.contains "?code=" code = false ->
  PyStr.contains "&" code = false ->
  extract_auth_code (base ++ "?code=" ++ code ++ "?code=" ++ r) = code.
Proof.
  intros Hbase Hcode Hamp.
  unfold extract_auth_code. rewrite contains_append. unfold PyStr.split at 2.
  rewrite split_go_gather
    by (apply no_match_in_intro;
        [exact Hbase | apply (no_overlap_code "?"); now left]).
  rewrite split_go_code_here. cbn [nth].
  rewrite split_go_gather
    by (apply no_match_in_intro;
        [exact Hcode | apply (no_overlap_code "?"); now left]).
  rewrite split_go_code_here. cbn [nth append].
  unfold PyStr.split. now rewrite split_go_whole by exact Hamp.
Qed.

(** ** Interactive login *)

Section Login.

Variable auth : BasecampAuth.

(** Once a code has been read, [login] makes one exchange with the token
    endpoint, and the code it sends is the extracted one. *)
Lemma login_exchange (line code : string) (w : world) :
  stdin w 0%nat = Some line ->
  extract_auth_code (PyStr.strip line) = code ->
  code <> EmptyString ->
  http_events (trace (snd (login auth w)))
  = (http_events (trace w) ++ [(login_request auth code, net w 0%nat)])%list.
Proof.
  intros Hline Hcode Hne.
  unfold login, bind, lift, open_browser, input. cbn.
  rewrite Hline. cbn. rewrite Hcode.
  destruct (String.eqb_spec code EmptyString) as [|_]; [contradiction|].
  unfold send. cbn. destruct (net w 0%nat) as [|resp]; cbn; [now http_norm|].
  unfold checked_json, raise_for_status, response_json, bind, raise, ret.
  destruct (is_error_status (status_code resp)); cbn; [now http_norm|].
  destruct (content resp) as [new|]; cbn; [|now http_norm].
  destruct new; cbn; try (now http_norm).
  unfold save_token; cbn. destruct (disk w 0%nat); cbn; now http_norm.
Qed.

(** C5, as the code has it.  When the stripped input is some text free
    of [?code=], then [?code=], then a code free of [&] and of [?code=],
    then nothing, or [&] and more, or [?code=] and more, the code [login]
    extracts is that code, and when it is not empty it is the one sent to
    the token endpoint.  The URL [http://localhost?code=ABC123&state=xyz]
    gives [ABC123].  An input without [?code=] is taken whole. *)
Theorem login_extracts_code_from_url (line base code rest : string) (w : world) :
  stdin w 0%nat = Some line ->
  PyStr.strip line = base ++ "?code=" ++ code ++ rest ->
  PyStr.contains "?code=" base = false ->
  PyStr.contains "?code=" code = false ->
  PyStr.contains "&" code = false ->
  rest = EmptyString \/ (exists r, rest = "&" ++ r) \/
  (exists r, rest = "?code=" ++ r) ->
  extract_auth_code (PyStr.strip line) = code /\
  (code <> EmptyString ->
   http_events (trace (snd (login auth w)))
   = (http_events (trace w) ++ [(login_request auth code, net w 0%nat)])%list) /\
  extract_auth_code (PyStr.strip "http://localhost?code=ABC123&state=xyz")
  = "ABC123" /\
  (forall s, PyStr.contains "?code=" s = false -> extract_auth_code s = s).
Proof.
  intros Hline Hurl Hbase Hcode Hamp Hrest.
  assert (Hx : extract_auth_code (PyStr.strip line) = code).
  { rewrite Hurl. destruct Hrest as [Hrest | [Hrest | (r & ->)]].
    - apply extract_auth_code_url; auto.
    - apply extract_auth_code_url; auto.
    - now apply extract_auth_code_url_twice. }
  split; [exact Hx|]. split; [|split; [reflexivity|]].
  - intros Hne. now apply login_exchange with (line := line).
  - intros s Hs. unfold extract_auth_code. now rewrite Hs.
Qed.

End Login.

(** * Concrete runs *)

Lemma sample_cred : has_access_token Sample.api (JStr "abc").
Proof. split; reflexivity. Defined.

(** With [get_all] false the first of the two pages is fetched alone. *)
Lemma get_projects_first_page_only_witness :
  has_access_token Sample.api (JStr "abc") /\
  exists r w',
    get_projects 1 Sample.api Sample.account_id false Sample.paged = Some (r, w') /\
    trace w'
    = (trace Sample.paged
       ++ [EvHttp (page_request Sample.api Sample.account_id (JStr "abc") 1)
                  (net Sample.paged 0%nat)])%list /\
    (forall records more,
        page_of (net Sample.paged 0%nat) records more -> r = Ok records).
Proof.
  split; [exact sample_cred|].
  exact (get_projects_first_page_only Sample.api Sample.account_id (JStr "abc")
           sample_cred 0 Sample.paged).
Defined.

(** The scenario of two requests: a page of two records, then an empty
    page. *)
Lemma get_projects_follows_next_witness :
  exists w',
    get_projects 2 Sample.api Sample.account_id true Sample.paged
    = Some (Ok (List.concat [Sample.page1] ++ [])%list, w') /\
    http_events (trace w')
    = (http_events (trace Sample.paged)
       ++ map (fun i => (page_request Sample.api Sample.account_id (JStr "abc")
                                      (1 + Z.of_nat i),
                         net Sample.paged i))
              (seq 0 2))%list /\
    ([Sample.page1] = [] -> @nil json = [] ->
     get_projects 2 Sample.api Sample.account_id false Sample.paged
     = Some (Ok [], w')).
Proof.
  apply (get_projects_follows_next Sample.api Sample.account_id (JStr "abc")
           sample_cred [Sample.page1] [] 2 Sample.paged).
  - intros [|i] Hi; [|cbn in Hi; lia].
    split; [discriminate|].
    eexists. split; [reflexivity|]. split; [reflexivity|]. split; reflexivity.
  - exists false. split; [|now left].
    eexists. split; [reflexivity|]. split; [reflexivity|]. split; reflexivity.
  - cbn. lia.
Defined.

(** The project has a todo set and no chat. *)
Lemma dock_lookup_scans_fresh_project_witness :
  get_campfire Sample.api Sample.account_id Sample.project_id Sample.with_project
  = (Raise (ValueError no_campfire_msg),
     sent (project_request Sample.api Sample.account_id Sample.project_id
                           (JStr "abc")) Sample.with_project) /\
  get_todoset Sample.api Sample.account_id Sample.project_id Sample.with_project
  = (Ok (JInt 42),
     sent (project_request Sample.api Sample.account_id Sample.project_id
                           (JStr "abc")) Sample.with_project).
Proof.
  assert (Hproject : project_of (net Sample.with_project 0%nat) Sample.project).
  { eexists. split; [reflexivity|]. split; reflexivity. }
  destruct (dock_lookup_scans_fresh_project Sample.api Sample.account_id
              Sample.project_id (JStr "abc") sample_cred Sample.project
              Sample.with_project Hproject)
    as (_ & _ & Hchat & Htodoset & _).
  split.
  - apply Hchat. right. eexists. split; [reflexivity|].
    repeat constructor; eexists; split; reflexivity.
  - apply (Htodoset Sample.todoset_entry).
    exists [JObj [("id", JInt 41); ("name", JStr "message_board")]], [].
    split; [reflexivity|]. split.
    + repeat constructor. eexists. split; reflexivity.
    + eexists. split; reflexivity.
Defined.

(** The answer without a refresh token keeps the token [r-1]. *)
Lemma refresh_carries_refresh_token_forward_witness :
  exists saved w',
    refresh_token Sample.auth (JObj Sample.old_cred) Sample.stale
    = (Ok (JObj saved), w') /\
    token_file w' = Some (JObj saved) /\
    Dict.get "refresh_token" saved = Some (JStr "r-1") /\
    Dict.get "obtained_at" saved = Some (JInt (clock Sample.stale 0%nat)) /\
    forall k, k <> "refresh_token" -> k <> "obtained_at" ->
              Dict.get k saved = Dict.get k Sample.new_cred.
Proof.
  apply (refresh_carries_refresh_token_forward Sample.auth Sample.old_cred
           Sample.new_cred (JStr "r-1") Sample.stale).
  - reflexivity.
  - eexists. split; [reflexivity|]. split; reflexivity.
  - reflexivity.
  - reflexivity.
Defined.

(** The answer says [obtained_at = 1]; the credential written holds the
    local time, after a refresh, after a login, and after a refresh whose
    write fails at [os.chmod]. *)
Lemma obtained_at_is_local_time_witness :
  Dict.get "obtained_at" Sample.new_cred = Some (JInt 1) /\
  (exists d,
      token_file (snd (refresh_token Sample.auth (JObj Sample.old_cred) Sample.stale))
      = Some (JObj d) /\
      Dict.get "obtained_at" d = Some (JInt Sample.now)) /\
  (exists d,
      token_file (snd (login Sample.auth Sample.at_prompt)) = Some (JObj d) /\
      Dict.get "obtained_at" d = Some (JInt Sample.now)) /\
  (exists d,
      fst (refresh_token Sample.auth (JObj Sample.old_cred)
                         (Sample.failing_disk AtChmod Sample.stale))
      = Raise OSError /\
      token_file (snd (refresh_token Sample.auth (JObj Sample.old_cred)
                                     (Sample.failing_disk AtChmod Sample.stale)))
      = Some (JObj d) /\
      Dict.get "obtained_at" d = Some (JInt Sample.now)).
Proof.
  split; [reflexivity|]. split; [|split].
  - destruct (obtained_at_is_local_time Sample.auth (JObj Sample.old_cred)
                Sample.stale
                (fst (refresh_token Sample.auth (JObj Sample.old_cred) Sample.stale))
                (snd (refresh_token Sample.auth (JObj Sample.old_cred) Sample.stale))
                (or_intror eq_refl)) as [_ Hinv].
    destruct (Hinv _ eq_refl) as (d & Hd & Hoa); [discriminate|].
    exists d. split; [now rewrite <- Hd | exact Hoa].
  - destruct (obtained_at_is_local_time Sample.auth JNull Sample.at_prompt
                (fst (login Sample.auth Sample.at_prompt))
                (snd (login Sample.auth Sample.at_prompt))
                (or_introl eq_refl)) as [_ Hinv].
    destruct (Hinv _ eq_refl) as (d & Hd & Hoa); [discriminate|].
    exists d. split; [now rewrite <- Hd | exact Hoa].
  - destruct (obtained_at_is_local_time Sample.auth (JObj Sample.old_cred)
                (Sample.failing_disk AtChmod Sample.stale)
                (fst (refresh_token Sample.auth (JObj Sample.old_cred)
                                    (Sample.failing_disk AtChmod Sample.stale)))
                (snd (refresh_token Sample.auth (JObj Sample.old_cred)
                                    (Sample.failing_disk AtChmod Sample.stale)))
                (or_intror eq_refl)) as [_ Hinv].
    destruct (Hinv _ eq_refl) as (d & Hd & Hoa); [discriminate|].
    exists d. split; [reflexivity|]. split; [now rewrite <- Hd | exact Hoa].
Defined.


(** Stale and without a refresh token: no credential, no error. *)
Lemma failed_refresh_gives_no_credential_witness :
  get_valid_token Sample.auth Sample.stale_bare
  = (Ok JNull, ticked Sample.stale_bare).
Proof.
  assert (Hne : Sample.bare_cred <> []) by discriminate.
  destruct (failed_refresh_gives_no_credential Sample.auth Sample.bare_cred
              Sample.stale_bare eq_refl Hne eq_refl)
    as (_ & _ & Hnone & _).
  apply Hnone. reflexivity.
Defined.

(** The pasted redirect URL gives the code [ABC123]. *)
Lemma login_extracts_code_from_url_witness :
  extract_auth_code (PyStr.strip Sample.pasted) = "ABC123" /\
  http_events (trace (snd (login Sample.auth Sample.at_prompt)))
  = (http_events (trace Sample.at_prompt)
     ++ [(login_request Sample.auth "ABC123", net Sample.at_prompt 0%nat)])%list /\
  extract_auth_code (PyStr.strip "http://localhost?code=a?code=b&state=x") = "a".
Proof.
  destruct (login_extracts_code_from_url Sample.auth Sample.pasted
              "http://localhost" "ABC123" "&state=xyz" Sample.at_prompt)
    as (Hcode & Hsent & _ & _); try reflexivity.
  - right. left. now exists "state=xyz".
  - destruct (login_extracts_code_from_url Sample.auth
                "http://localhost?code=a?code=b&state=x"
                "http://localhost" "a" "?code=b&state=x"
                (Sample.world_of Sample.now []
                   (Some "http://localhost?code=a?code=b&state=x") None))
      as (Hagain & _); try reflexivity.
    + right. right. now exists "b&state=x".
    + split; [exact Hcode|]. split; [apply Hsent; discriminate | exact Hagain].
Defined.

(** C5 as stated fails on a redirect URL in which [code] is not the first
    query parameter: the whole URL is taken as the code and sent. *)
Lemma code_parameter_not_first :
  let pasted := "http://localhost?state=xyz&code=ABC123" in
  let w := Sample.world_of Sample.now [] (Some pasted) None in
  extract_auth_code (PyStr.strip pasted) = pasted /\
  extract_auth_code (PyStr.strip pasted) <> "ABC123" /\
  http_events (trace (snd (login Sample.auth w)))
  = [(login_request Sample.auth pasted, NetFail)].
Proof. repeat split. discriminate. Qed.

(** A credential without [obtained_at] and with [expires_in = 100]. *)
Lemma missing_expiry_fields_default_witness :
  token_expired Sample.now (JObj [("access_token", JStr "abc"); ("expires_in", JInt 100)])
  = Ok (Sample.now >? 100 - 300) /\
  get_valid_token Sample.auth Sample.undated
  = (Ok (JObj Sample.undated_cred), ticked Sample.undated).
Proof.
  split.
  - destruct (missing_expiry_fields_default Sample.auth
                [("access_token", JStr "abc"); ("expires_in", JInt 100)]
                Sample.undated)
      as (_ & _ & Hmiss & _).
    apply Hmiss; reflexivity.
  - destruct (missing_expiry_fields_default Sample.auth Sample.undated_cred
                Sample.undated)
      as (_ & _ & _ & _ & _ & Hfresh).
    apply (Hfresh eq_refl 2000000000); [reflexivity | | reflexivity].
    cbn. unfold Sample.now. lia.
Defined.

(** C10 as stated fails: a stored credential without [obtained_at] need
    not count as stale.  With [expires_in = 2000000000] and the clock at
    1700000000 the test of line 341 is false. *)
Lemma missing_obtained_at_not_always_stale :
  ~ (forall (d : dict) (w : world),
        token_file w = Some (JObj d) ->
        Dict.get "obtained_at" d = None ->
        token_expired (clock w 0%nat) (JObj d) = Ok true).
Proof.
  intros H.
  specialize (H Sample.undated_cred Sample.undated eq_refl eq_refl).
  discriminate H.
Qed.

(** * Further properties of the client *)

(** ** Failures of the first request *)

Lemma send_fail (rq : request) (w : world) :
  net w 0%nat = NetFail ->
  send rq w = (Raise ConnectionError, sent rq w).
Proof. intros H. unfold sent, send. now rewrite H. Qed.

Lemma send_resp (rq : request) (r : response) (w : world) :
  net w 0%nat = NetResp r ->
  send rq w = (Ok r, sent rq w).
Proof. intros H. unfold sent, send. now rewrite H. Qed.

Lemma checked_json_error (r : response) (w : world) :
  is_error_status (status_code r) = true ->
  checked_json r w = (Raise (HTTPError (status_code r)), w).
Proof.
  intros H. unfold checked_json, raise_for_status, bind, raise. now rewrite H.
Qed.

Lemma checked_json_undecodable (r : response) (w : world) :
  is_error_status (status_code r) = false ->
  content r = None ->
  checked_json r w = (Raise JSONDecodeError, w).
Proof.
  intros H Hc. unfold checked_json, raise_for_status, response_json, bind, raise, ret.
  now rewrite H, Hc.
Qed.

Lemma checked_json_ok (r : response) (v : json) (w : world) :
  is_error_status (status_code r) = false ->
  content r = Some v ->
  checked_json r w = (Ok v, w).
Proof.
  intros H Hc. unfold checked_json, raise_for_status, response_json, bind, ret.
  now rewrite H, Hc.
Qed.

(** What the operations have in common: they start with a request made
    with the client's headers, and hand its answer to [checked_json]. *)
Lemma invoke_first_request (api : BasecampAPI) (tok : json) (c : api_call) :
  has_access_token api tok ->
  exists rq,
    (exists m u b, rq = authed m u tok b) /\
    forall (fuel : nat) (w : world) (e : exn),
      (net w 0%nat = NetFail /\ e = ConnectionError) \/
      (exists r, net w 0%nat = NetResp r /\ checked_json r (sent rq w) = (Raise e, sent rq w)) ->
      invoke (S fuel) api c w = Some (Raise e, sent rq w).
Proof.
  intros Hcred.
  destruct c; eexists; (split; [do 3 eexists; reflexivity|]);
    intros fuel w e Hcase; cbn [invoke];
    unfold post_to_campfire, get_identity, get_projects, get_todoset, get_todolists,
      create_todolist, get_todos, create_todo, post_message, get_campfire,
      get_project, bind;
    cbn [get_projects_loop]; unfold get_projects_body, bind;
    rewrite ?(api_get_send api tok _ _ Hcred), ?(api_post_send api tok _ _ _ Hcred);
    (destruct Hcase as [[Hnet ->] | (r & Hnet & Hjson)];
     [rewrite send_fail by exact Hnet; reflexivity
     |rewrite send_resp with (1 := Hnet), Hjson; reflexivity]).
Qed.

(** X1.  Every operation of the client starts with one request carrying
    the client's bearer token, fixed by the operation and its arguments.
    When that request fails on the network, is answered with a 4xx or 5xx
    status, or is answered with a body that is not JSON, the operation
    raises the matching error, the status included, and sends nothing
    more. *)
Theorem first_failure_propagates (api : BasecampAPI) (tok : json) (c : api_call) :
  has_access_token api tok ->
  exists rq,
    (exists m u b, rq = authed m u tok b) /\
    forall (fuel : nat) (w : world),
      (net w 0%nat = NetFail ->
       invoke (S fuel) api c w = Some (Raise ConnectionError, sent rq w)) /\
      (forall r, net w 0%nat = NetResp r ->
                 is_error_status (status_code r) = true ->
                 invoke (S fuel) api c w
                 = Some (Raise (HTTPError (status_code r)), sent rq w)) /\
      (forall r, net w 0%nat = NetResp r ->
                 is_error_status (status_code r) = false ->
                 content r = None ->
                 invoke (S fuel) api c w = Some (Raise JSONDecodeError, sent rq w)).
Proof.
  intros Hcred.
  destruct (invoke_first_request api tok c Hcred) as (rq & Hrq & Hrun).
  exists rq. split; [exact Hrq|].
  intros fuel w. split; [|split].
  - intros Hnet. apply Hrun. now left.
  - intros r Hnet Hst. apply Hrun. right. exists r.
    split; [exact Hnet | now apply checked_json_error].
  - intros r Hnet Hst Hbody. apply Hrun. right. exists r.
    split; [exact Hnet | now apply checked_json_undecodable].
Qed.

(** ** Credentials without an access token *)

Lemma headers_key_error (api : BasecampAPI) (d : dict) (w : world) :
  token_data api = JObj d ->
  d <> [] ->
  Dict.get "access_token" d = None ->
  headers api w = (Raise (KeyError "access_token"), w).
Proof.
  intros Htok Hne Hkey. unfold headers, bind, lift. rewrite Htok. cbn.
  destruct d; [contradiction|]. cbn [negb]. now rewrite Hkey.
Qed.

(** X2.  A client whose credential is a non-empty object without
    [access_token] raises [KeyError] for that key in every operation,
    before any request is sent. *)
Theorem missing_access_token_is_key_error (api : BasecampAPI) (d : dict)
    (c : api_call) (fuel : nat) (w : world) :
  token_data api = JObj d ->
  d <> [] ->
  Dict.get "access_token" d = None ->
  invoke (S fuel) api c w = Some (Raise (KeyError "access_token"), w).
Proof.
  intros Htok Hne Hkey.
  pose proof (fun w => headers_key_error api d w Htok Hne Hkey) as Hh.
  destruct c; cbn [invoke];
    unfold post_to_campfire, get_identity, get_projects, get_todoset, get_todolists,
      create_todolist, get_todos, create_todo, post_message, get_campfire,
      get_project, bind;
    cbn [get_projects_loop]; unfold get_projects_body, bind;
    unfold api_get, api_post, bind; now rewrite Hh.
Qed.

(** ** Pagination beyond the happy path *)

Section PaginationMore.

Variables (api : BasecampAPI) (account_id tok : json).
Hypothesis Hcred : has_access_token api tok.

Local Abbreviation page_rq := (page_request api account_id tok).

(** Pages that announce a successor only move the loop forward. *)
Lemma get_projects_loop_advance :
  forall (pages : list (list json)) (w : world) (page : Z) (acc : list json),
    (forall i, (i < List.length pages)%nat ->
               nth i pages [] <> [] /\ page_of (net w i) (nth i pages []) true) ->
    exists w1,
      (forall f, get_projects_loop (List.length pages + f) api account_id true page acc w
                 = get_projects_loop f api account_id true
                     (page + Z.of_nat (List.length pages))
                     (acc ++ List.concat pages)%list w1) /\
      (forall i, net w1 i = net w (List.length pages + i)%nat) /\
      http_events (trace w1)
      = (http_events (trace w)
         ++ map (fun i => (page_rq (page + Z.of_nat i), net w i))
                (seq 0 (List.length pages)))%list.
Proof.
  induction pages as [|p ps IH]; intros w page acc Hpages.
  - exists w. cbn. rewrite Z.add_0_r, !app_nil_r. now repeat split.
  - destruct (Hpages 0%nat) as [Hne Hpage]; [cbn; lia|]. cbn [nth] in Hne, Hpage.
    destruct p as [|x p]; [congruence|].
    destruct (IH (slept (sent (page_rq page) w)) (page + 1) (acc ++ x :: p)%list)
      as (w1 & Hrun & Hnet & Htr).
    { intros i Hi. rewrite (sent_net _ w i : net (slept _) i = _).
      apply (Hpages (S i)). cbn. lia. }
    exists w1. split; [|split].
    + intros f. cbn [List.length Nat.add get_projects_loop].
      rewrite (get_projects_body_page api account_id tok Hcred true page acc
                 (x :: p) true w Hpage).
      cbn [andb]. rewrite Hrun. cbn [List.concat].
      rewrite <- app_assoc. f_equal. lia.
    + intros i. rewrite Hnet.
      now rewrite (sent_net _ w _ : net (slept _) _ = _).
    + rewrite Htr.
      change (trace (slept (sent (page_rq page) w)))
        with (trace (sent (page_rq page) w) ++ [EvSleep])%list.
      rewrite sent_trace. http_norm. f_equal.
      cbn [List.length].
      rewrite <- (cons_seq (List.length ps) 0), <- seq_shift, map_cons, map_map.
      cbn [app]. rewrite Z.add_0_r. f_equal.
      apply map_ext. intros i.
      rewrite (sent_net _ w i : net (slept _) i = _).
      f_equal. f_equal. lia.
Qed.

(** X3.  When a page fails after pages that were fetched well, the
    records gathered so far are dropped: [get_projects] raises the error
    of that page, having sent the requests up to it. *)
Theorem get_projects_failure_drops_pages (pages : list (list json)) (r : response)
    (fuel : nat) (w : world) :
  (forall i, (i < List.length pages)%nat ->
             nth i pages [] <> [] /\ page_of (net w i) (nth i pages []) true) ->
  net w (List.length pages) = NetResp r ->
  is_error_status (status_code r) = true ->
  (List.length pages < fuel)%nat ->
  exists w',
    get_projects fuel api account_id true w
    = Some (Raise (HTTPError (status_code r)), w') /\
    http_events (trace w')
    = (http_events (trace w)
       ++ map (fun i => (page_rq (1 + Z.of_nat i), net w i))
              (seq 0 (S (List.length pages))))%list.
Proof.
  intros Hpages Hnet Hst Hfuel.
  destruct (get_projects_loop_advance pages w 1 [] Hpages) as (w1 & Hrun & Hnet1 & Htr).
  replace fuel with (List.length pages + S (fuel - S (List.length pages)))%nat by lia.
  unfold get_projects. rewrite Hrun. cbn [get_projects_loop].
  assert (Hn : net w1 0%nat = NetResp r)
    by (now rewrite Hnet1, Nat.add_0_r).
  unfold get_projects_body, bind.
  rewrite api_get_send with (1 := Hcred), send_resp with (1 := Hn).
  rewrite checked_json_error by exact Hst.
  eexists. split; [reflexivity|].
  rewrite sent_trace. http_norm. rewrite Htr, Hnet1, Nat.add_0_r, <- app_assoc.
  f_equal. rewrite seq_S, map_app. reflexivity.
Qed.

(** X4.  The loop has no bound of its own: as long as every answer is a
    non-empty page that announces a successor, no amount of fuel brings
    [get_projects] to an end. *)
Theorem get_projects_never_stops_alone (pages : nat -> list json) (fuel : nat)
    (w : world) :
  (forall i, pages i <> [] /\ page_of (net w i) (pages i) true) ->
  get_projects fuel api account_id true w = None.
Proof.
  intros Hpages. unfold get_projects.
  enough (H : forall (acc : list json) (page : Z) (w0 : world)
                     (ps : nat -> list json),
             (forall i, ps i <> [] /\ page_of (net w0 i) (ps i) true) ->
             get_projects_loop fuel api account_id true page acc w0 = None)
    by (now apply H with (ps := pages)).
  clear pages w Hpages.
  induction fuel as [|fuel IH]; intros acc page w pages Hpages; [reflexivity|].
  cbn [get_projects_loop].
  destruct (Hpages 0%nat) as [Hne Hpage].
  rewrite (get_projects_body_page api account_id tok Hcred true page acc
             (pages 0%nat) true w Hpage).
  destruct (pages 0%nat) as [|x p]; [now contradiction Hne|]. cbn [andb].
  apply (IH _ _ _ (fun i => pages (S i))).
  intros i. rewrite (sent_net _ w i : net (slept _) i = _). apply Hpages.
Qed.

End PaginationMore.

(** ** Posting to a message board and to a chat *)

Section Posting.

Variables (api : BasecampAPI) (account_id project_id tok : json).
Hypothesis Hcred : has_access_token api tok.

Local Abbreviation project_rq := (project_request api account_id project_id tok).

Lemma api_post_answer (u : fstring) (data : list (string * json)) (v : json)
    (w : world) :
  answers (net w 0%nat) v ->
  (r <- api_post api u data ;; checked_json r) w
  = (Ok v, sent (authed POST u tok (JsonBody data)) w).
Proof.
  intros (r & Hnet & Hst & Hbody). unfold bind.
  rewrite api_post_send with (1 := Hcred), send_resp with (1 := Hnet).
  now apply checked_json_ok.
Qed.

(** X5.  [post_message] needs a usable id: when the project has no
    message board entry, and also when the first such entry has no [id]
    or one that tests false, it raises the not-found error having sent
    the project request only; nothing is posted. *)
Theorem post_message_needs_board_id (project : dict) (title content : string)
    (w : world) :
  project_of (net w 0%nat) project ->
  lacks_tool "message_board" project \/
  (exists d, first_tool "message_board" project d /\ Py.truthy (id_of d) = false) ->
  post_message api account_id project_id title content w
  = (Raise (ValueError no_message_board_msg), sent project_rq w).
Proof.
  intros Hproject Hcase. unfold post_message, bind, lift.
  rewrite (get_project_ok api account_id project_id tok Hcred project w Hproject).
  destruct Hcase as [Hlacks | (d & Hfirst & Hfalse)].
  - now rewrite find_in_dock_none.
  - rewrite find_in_dock_first with (1 := Hfirst). cbn. now rewrite Hfalse.
Qed.

(** X6.  With a message board whose id tests true, [post_message] sends
    the project request and then one POST to the messages of that board,
    with the title as [subject] and the content wrapped in a [div], and
    returns the decoded answer. *)
Theorem post_message_posts_to_board (project d : dict) (title content : string)
    (v : json) (w : world) :
  project_of (net w 0%nat) project ->
  first_tool "message_board" project d ->
  Py.truthy (id_of d) = true ->
  answers (net w 1%nat) v ->
  post_message api account_id project_id title content w
  = (Ok v,
     sent (authed POST
             (bucket_url api account_id project_id "/message_boards/" (id_of d)
                         "/messages.json")
             tok
             (JsonBody [("subject", JStr title);
                        ("content", JStr ("<div>" ++ content ++ "</div>"))]))
          (sent project_rq w)).
Proof.
  intros Hproject Hfirst Htrue Hans. unfold post_message, bind at 1, lift.
  rewrite (get_project_ok api account_id project_id tok Hcred project w Hproject).
  unfold bind at 1. rewrite find_in_dock_first with (1 := Hfirst). cbn [negb].
  rewrite Htrue. cbn [negb].
  apply api_post_answer. now rewrite sent_net.
Qed.

(** X7.  [post_to_campfire] is [get_campfire] followed by one POST: with
    no chat in the dock it raises the not-found error and posts nothing;
    with one it posts the content to the lines of the chat whose id
    [get_campfire] returned, [None] included when the entry has no
    [id]. *)
Theorem post_to_campfire_posts_to_chat (project : dict) (content : string)
    (w : world) :
  project_of (net w 0%nat) project ->
  (lacks_tool "chat" project ->
   post_to_campfire api account_id project_id content w
   = (Raise (ValueError no_campfire_msg), sent project_rq w)) /\
  (forall d v, first_tool "chat" project d ->
               answers (net w 1%nat) v ->
               post_to_campfire api account_id project_id content w
               = (Ok v,
                  sent (authed POST
                          (bucket_url api account_id project_id "/chats/" (id_of d)
                                      "/lines.json")
                          tok (JsonBody [("content", JStr content)]))
                       (sent project_rq w))).
Proof.
  intros Hproject. split.
  - intros Hlacks. unfold post_to_campfire, get_campfire, bind, lift.
    rewrite (get_project_ok api account_id project_id tok Hcred project w Hproject).
    now rewrite find_in_dock_none.
  - intros d v Hfirst Hans.
    unfold post_to_campfire, get_campfire, bind at 1 2, lift.
    rewrite (get_project_ok api account_id project_id tok Hcred project w Hproject).
    unfold bind at 1. rewrite find_in_dock_first with (1 := Hfirst).
    apply api_post_answer. now rewrite sent_net.
Qed.

End Posting.

(** * Further properties of the token lifecycle *)

Section LifecycleMore.

Variable auth : BasecampAuth.

(** X8.  When the answer to a refresh brings a refresh token of its own,
    that one is kept: the credential returned and written is the answer
    with the new [obtained_at], and the old refresh token appears in the
    request only. *)
Theorem refresh_takes_new_refresh_token (old new : dict) (rt rt' : json)
    (w : world) :
  Dict.get "refresh_token" old = Some rt ->
  answers (net w 0%nat) (JObj new) ->
  Dict.get "refresh_token" new = Some rt' ->
  disk w 0%nat = true ->
  let saved := Dict.set "obtained_at" (JInt (clock w 0%nat)) new in
  exists w',
    refresh_token auth (JObj old) w = (Ok (JObj saved), w') /\
    token_file w' = Some (JObj saved) /\
    Dict.get "refresh_token" saved = Some rt' /\
    http_events (trace w')
    = (http_events (trace w) ++ [(refresh_request auth rt, net w 0%nat)])%list.
Proof.
  intros Hrt Hans Hnew Hdisk saved.
  destruct (refresh_token_ok auth old new rt w Hrt Hans Hdisk)
    as (w' & Hrun & Hfile & Htr).
  assert (Hkept : Dict.get "refresh_token" saved = Some rt').
  { subst saved. now rewrite dict_get_set_other by (intros [=]). }
  unfold Dict.mem in Hrun, Hfile, Htr. fold saved in Hrun, Hfile, Htr.
  rewrite Hkept in Hrun, Hfile, Htr.
  exists w'. split; [exact Hrun|]. split; [exact Hfile|]. split; [exact Hkept|].
  rewrite Htr. now http_norm.
Qed.

(** A refresh is at most one exchange, whatever the credential is. *)
Lemma refresh_token_at_most_one (tok : json) (w : world) :
  exists l, http_events (trace (snd (refresh_token auth tok w)))
            = (http_events (trace w) ++ l)%list /\
            (List.length l <= 1)%nat.
Proof.
  unfold refresh_token, bind, lift.
  destruct (Py.contains "refresh_token" tok) as [has|e];
    [|exists []; split; [now http_norm | cbn; lia]].
  destruct has; cbn [negb]; [|exists []; split; [now http_norm | cbn; lia]].
  destruct (Py.getitem tok "refresh_token") as [rt|e];
    [|exists []; split; [now http_norm | cbn; lia]].
  exists [(refresh_request auth rt, net w 0%nat)]. split; [|cbn; lia].
  unfold send. destruct (net w 0%nat) as [|resp]; cbn; [now http_norm|].
  unfold checked_json, raise_for_status, response_json, bind, raise, ret.
  destruct (is_error_status (status_code resp)); cbn; [now http_norm|].
  destruct (content resp) as [new|]; cbn; [|now http_norm].
  destruct new; cbn; try (now http_norm).
  destruct (Dict.mem "refresh_token" _); cbn;
    unfold save_token; cbn; destruct (disk w 0%nat); cbn; now http_norm.
Qed.

Lemma dict_get_nonempty (k : string) (d : dict) (v : json) :
  Dict.get k d = Some v -> Py.truthy (JObj d) = true.
Proof. now destruct d. Qed.


(** What [get_valid_token] hands out is what the token file holds; when
    it hands out nothing the file is as it was, unless the write of a
    refreshed credential failed. *)
Lemma get_valid_token_file (w : world) (r : result json) (w' : world) :
  get_valid_token auth w = (r, w') ->
  match r with
  | Ok tok => if Py.truthy tok then token_file w' = Some tok
              else token_file w' = token_file w \/
                   stamped_write_failed (ticked w) w'
  | Raise _ => token_file w' = token_file w
  end.
Proof.
  intros Hrun.
  destruct (token_file w) as [tok|] eqn:Hfile.
  - destruct (Py.truthy tok) eqn:Htruthy.
    + rewrite (get_valid_token_run auth tok w Hfile Htruthy) in Hrun.
      destruct (token_expired (clock w 0%nat) tok) as [[|]|e].
      * destruct (refresh_token auth tok (ticked w)) as [r1 w1] eqn:Hrefresh.
        apply refresh_token_inv in Hrefresh.
        destruct r1 as [cred|e]; injection Hrun as <- <-.
        -- destruct Hrefresh as (rt & resp & d & _ & -> & Hoa & Hsaved & _).
           now rewrite (dict_get_nonempty _ _ _ Hoa).
        -- cbn. destruct Hrefresh as [Hsame | Hfailed]; [left | now right].
           now rewrite Hsame.
      * injection Hrun as <- <-. now rewrite Htruthy.
      * injection Hrun as <- <-. exact Hfile.
    + unfold get_valid_token, bind, load_token in Hrun.
      rewrite Hfile, Htruthy in Hrun. injection Hrun as <- <-. now left.
  - unfold get_valid_token, bind, load_token in Hrun. rewrite Hfile in Hrun.
    injection Hrun as <- <-. now left.
Qed.

(** X10.  [get_valid_token] and the token file.  A credential it returns
    is the content of the file afterwards.  When it raises, the file is
    as it was.  When it returns [None], the file is as it was unless the
    write of the refreshed credential failed; then the file is as it was,
    unreadable or holding the refreshed credential, according to where
    the write failed.  With a write that goes through, [None] leaves the
    file as it was.  At most one exchange is made. *)
Theorem get_valid_token_keeps_file_in_step (w : world) (r : result json)
    (w' : world) :
  get_valid_token auth w = (r, w') ->
  match r with
  | Ok tok => if Py.truthy tok then token_file w' = Some tok
              else token_file w' = token_file w \/
                   stamped_write_failed (ticked w) w'
  | Raise _ => token_file w' = token_file w
  end /\
  (disk w 0%nat = true ->
   forall tok, r = Ok tok -> Py.truthy tok = false ->
               token_file w' = token_file w) /\
  exists l, http_events (trace w') = (http_events (trace w) ++ l)%list /\
            (List.length l <= 1)%nat.
Proof.
  intros Hrun.
  pose proof (get_valid_token_file w r w' Hrun) as Hfile.
  split; [exact Hfile|]. split.
  { intros Hdisk tok -> Hfalsy. rewrite Hfalsy in Hfile.
    destruct Hfile as [Hsame | (d & rq & resp & before & _ & Hno & _)];
      [exact Hsame|].
    change (disk (ticked w) 0%nat) with (disk w 0%nat) in Hno. congruence. }
  clear Hfile. revert Hrun. destruct (token_file w) as [tok|] eqn:Hfile.
  - destruct (Py.truthy tok) eqn:Htruthy.
    + rewrite (get_valid_token_run auth tok w Hfile Htruthy).
      destruct (token_expired (clock w 0%nat) tok) as [[|]|e].
      * destruct (refresh_token_at_most_one tok (ticked w)) as (l & Hl & Hlen).
        rewrite ticked_http_events in Hl.
        destruct (refresh_token auth tok (ticked w)) as [[cred|e] w1];
          intros [= <- <-]; exists l; now split.
      * intros [= <- <-]. exists []. rewrite ticked_http_events, app_nil_r.
        split; [reflexivity | cbn; lia].
      * intros [= <- <-]. exists []. rewrite ticked_http_events, app_nil_r.
        split; [reflexivity | cbn; lia].
    + unfold get_valid_token, bind, load_token. rewrite Hfile, Htruthy.
      intros [= <- <-]. exists []. rewrite app_nil_r. split; [reflexivity | cbn; lia].
  - unfold get_valid_token, bind, load_token. rewrite Hfile.
    intros [= <- <-]. exists []. rewrite app_nil_r. split; [reflexivity | cbn; lia].
Qed.

(** A [login] that returns has read the clock once. *)
Lemma login_clock (w : world) (tok : json) (w' : world) :
  login auth w = (Ok tok, w') ->
  forall i, clock w' i = clock w (S i).
Proof.
  unfold login, bind, lift, open_browser, input. cbn.
  destruct (stdin w 0%nat) as [line|]; cbn; [|discriminate].
  destruct (String.eqb (extract_auth_code (PyStr.strip line)) EmptyString);
    [discriminate|].
  unfold send. cbn. destruct (net w 0%nat) as [|resp]; cbn; [discriminate|].
  unfold checked_json, raise_for_status, response_json, bind, raise, ret.
  destruct (is_error_status (status_code resp)); cbn; [discriminate|].
  destruct (content resp) as [new|]; cbn; [|discriminate].
  destruct new; cbn; try discriminate.
  unfold save_token; cbn. destruct (disk w 0%nat); cbn; [|discriminate].
  intros [= <- <-]. reflexivity.
Qed.

(** X11.  A credential that [login] has just returned is not refreshed by
    the next [get_valid_token]: when the clock has advanced by no more
    than [expires_in - 300] since the stamp, with 7200 for a missing
    [expires_in], the same credential comes back and only the clock is
    read. *)
Theorem fresh_login_is_not_refreshed (w : world) (tok : json) (w1 : world)
    (ei : Z) :
  login auth w = (Ok tok, w1) ->
  Py.get tok "expires_in" (JInt 7200) = Ok (JInt ei) ->
  clock w 1%nat - clock w 0%nat <= ei - 300 ->
  get_valid_token auth w1 = (Ok tok, ticked w1).
Proof.
  intros Hlogin Hei Hfresh.
  pose proof (login_clock w tok w1 Hlogin 0%nat) as Hclock.
  apply login_inv in Hlogin.
  destruct Hlogin as (line & resp & d & _ & _ & -> & Hoa & Hfile & _).
  rewrite (get_valid_token_run auth (JObj d) w1 Hfile (dict_get_nonempty _ _ _ Hoa)).
  unfold token_expired. rewrite Hei. cbn. rewrite Hoa. cbn. rewrite Hclock.
  assert (Hcmp : (clock w 1%nat - clock w 0%nat >? ei - 300) = false)
    by (rewrite Z.gtb_ltb; apply Z.ltb_ge; lia).
  now rewrite Hcmp.
Qed.

Lemma lstrip_blank (s : string) : blank s = true -> PyStr.lstrip s = EmptyString.
Proof.
  unfold blank. induction s as [|c s IH]; cbn; [reflexivity|].
  destruct (PyStr.isspace c); [exact IH | discriminate].
Qed.

(** X12.  [login] asks the token endpoint nothing unless it has a code:
    at the end of the input it raises [EOFError]; on a line of white
    space only, and on a redirect URL whose [code] parameter is empty, it
    raises "No authorization code entered".  In each case the browser has
    been opened and the line read, no request is sent and the token file
    is untouched. *)
Theorem login_without_code (w : world) :
  (stdin w 0%nat = None -> login auth w = (Raise EOFError, prompted auth w)) /\
  (forall line,
      stdin w 0%nat = Some line ->
      blank line = true \/
      (exists base rest,
          PyStr.strip line = base ++ "?code=" ++ rest /\
          PyStr.contains "?code=" base = false /\
          (rest = EmptyString \/ exists r, rest = "&" ++ r)) ->
      login auth w = (Raise (ValueError no_code_msg), prompted auth w)) /\
  token_file (prompted auth w) = token_file w /\
  http_events (trace (prompted auth w)) = http_events (trace w).
Proof.
  split; [|split; [|split]].
  - intros Hin. unfold login, prompted, bind, open_browser, input. cbn.
    now rewrite Hin.
  - intros line Hin Hcase.
    assert (Hcode : extract_auth_code (PyStr.strip line) = EmptyString).
    { destruct Hcase as [Hblank | (base & rest & Hurl & Hbase & Hrest)].
      - unfold PyStr.strip. now rewrite lstrip_blank.
      - rewrite Hurl.
        apply (extract_auth_code_url base EmptyString rest Hbase);
          [reflexivity | reflexivity | exact Hrest]. }
    unfold login, prompted, bind, open_browser, input. cbn.
    rewrite Hin. cbn. now rewrite Hcode.
  - unfold prompted, input. cbn. now destruct (stdin w 0%nat).
  - unfold prompted, input. cbn. destruct (stdin w 0%nat); now http_norm.
Qed.


(** X14.  Whenever [ensure_auth] returns, the credential it returns tests
    true, it is the one the client holds and the one in the token file:
    the client never fails for want of a credential. *)
Theorem ensure_auth_gives_credential (w : world) (api : BasecampAPI) (tok : json)
    (w' : world) :
  ensure_auth auth w = (Ok (api, tok), w') ->
  Py.truthy tok = true /\
  token_data api = tok /\
  token_file w' = Some tok.
Proof.
  unfold ensure_auth, bind at 1.
  destruct (get_valid_token auth w) as [[t|e] w0] eqn:Hvalid; [|discriminate].
  apply get_valid_token_file in Hvalid.
  destruct (Py.truthy t) eqn:Htruthy; cbn [negb]; unfold bind, ret.
  - intros [= <- <- <-]. now repeat split.
  - destruct (login auth w0) as [[t'|e] w1] eqn:Hlogin; [|discriminate].
    intros [= <- <- <-]. apply login_inv in Hlogin.
    destruct Hlogin as (line & resp & d & _ & _ & -> & Hoa & Hsaved & _).
    split; [exact (dict_get_nonempty _ _ _ Hoa)|]. now split.
Qed.

End LifecycleMore.

(** ** The status command *)

Lemma headers_pure (api : BasecampAPI) (w : world) :
  exists r, headers api w = (r, w).
Proof.
  unfold headers, bind, lift, raise, ret.
  destruct (negb (Py.truthy (token_data api))); [eexists; reflexivity|].
  destruct (Py.getitem (token_data api) "access_token"); eexists; reflexivity.
Qed.

(** [get_identity] sends one request or none, and writes nothing. *)
Lemma get_identity_world (api : BasecampAPI) (w : world) :
  snd (get_identity api w) = w \/
  exists rq, snd (get_identity api w) = sent rq w.
Proof.
  unfold get_identity, api_get, bind.
  destruct (headers_pure api w) as ([h|e] & ->); [|now left].
  right. eexists. unfold sent, send.
  destruct (net w 0%nat) as [|r]; [reflexivity|]. cbn.
  unfold checked_json, raise_for_status, response_json, bind, raise, ret.
  destruct (is_error_status (status_code r)); [reflexivity|]. cbn.
  now destruct (content r).
Qed.

(** The two expiry computations see the same number of seconds left and
    fail on the same credentials. *)
Lemma token_expired_status_remaining (now : Z) (tok : json) :
  token_expired now tok
  = (let? remaining := status_remaining now tok in Ok (remaining <? 300)).
Proof.
  unfold token_expired, status_remaining.
  destruct (Py.get tok "obtained_at" (JInt 0)) as [oa|e]; [|reflexivity]. cbn.
  destruct (Py.get tok "expires_in" (JInt 7200)) as [ei|e]; [|reflexivity]. cbn.
  destruct (Py.as_int oa) as [a|e]; [|reflexivity]. cbn.
  destruct (Py.as_int ei) as [b|e]; [|reflexivity]. cbn.
  f_equal. rewrite Z.gtb_ltb.
  destruct (Z.ltb_spec (b - 300) (now - a)), (Z.ltb_spec (a + b - now) 300);
    (reflexivity || lia).
Qed.

Lemma cmd_auth_status_run (tok : json) (w : world) :
  token_file w = Some tok ->
  Py.truthy tok = true ->
  cmd_auth_status w
  = match status_remaining (clock w 0%nat) tok with
    | Raise e => (Raise e, ticked w)
    | Ok remaining =>
        if remaining <=? 0 then (Ok tt, ticked w)
        else (Ok tt, snd (get_identity (BasecampAPI_init tok) (ticked w)))
    end.
Proof.
  intros Hfile Htruthy.
  unfold cmd_auth_status, bind, load_token, lift, try_except, ret.
  rewrite Hfile, Htruthy. cbn [negb]. change (snd (time_now w)) with (ticked w).
  unfold time_now. fold (ticked w). cbn [fst snd].
  destruct (status_remaining (clock w 0%nat) tok) as [remaining|e]; [|reflexivity].
  destruct (remaining <=? 0); [reflexivity|].
  unfold ticked, time_now. cbn [snd].
  now destruct (get_identity (BasecampAPI_init tok) _) as [[v|e] w'].
Qed.

(** X15.  The status command and [get_valid_token] compute the same
    remaining time and differ in the threshold: the command sends the
    identity request with the stored token as long as more than 0 seconds
    remain, and nothing at 0 or below, while [get_valid_token] counts the
    credential as stale below 300.  With 1 to 299 seconds left the
    command uses a token that [get_valid_token] would first refresh. *)
Theorem status_and_refresh_thresholds (tok at_ : json) (remaining : Z) (w : world) :
  token_file w = Some tok ->
  has_access_token (BasecampAPI_init tok) at_ ->
  status_remaining (clock w 0%nat) tok = Ok remaining ->
  token_expired (clock w 0%nat) tok = Ok (remaining <? 300) /\
  (remaining <= 0 -> cmd_auth_status w = (Ok tt, ticked w)) /\
  (0 < remaining ->
   cmd_auth_status w = (Ok tt, sent (identity_request at_) (ticked w))).
Proof.
  intros Hfile Hcred Hrem.
  split; [now rewrite token_expired_status_remaining, Hrem|].
  rewrite (cmd_auth_status_run tok w Hfile (proj1 Hcred)), Hrem.
  split; intros Hr.
  - now rewrite (proj2 (Z.leb_le remaining 0) Hr).
  - rewrite (proj2 (Z.leb_gt remaining 0) Hr). f_equal.
    unfold get_identity, bind.
    rewrite api_get_send with (1 := Hcred).
    unfold identity_request, sent, send.
    destruct (net (ticked w) 0%nat) as [|r]; [reflexivity|]. cbn.
    unfold checked_json, raise_for_status, response_json, bind, raise, ret.
    destruct (is_error_status (status_code r)); [reflexivity|]. cbn.
    now destruct (content r).
Qed.

(** X16.  The status command only looks: it leaves the token file as it
    is, sends at most one request, and the only errors it lets out are
    those of the expiry arithmetic on a malformed token file; whatever
    happens to the identity request, it returns normally. *)
Theorem cmd_auth_status_only_looks (w : world) :
  token_file (snd (cmd_auth_status w)) = token_file w /\
  (exists l, http_events (trace (snd (cmd_auth_status w)))
             = (http_events (trace w) ++ l)%list /\
             (List.length l <= 1)%nat) /\
  (forall e, fst (cmd_auth_status w) = Raise e ->
             exists tok, token_file w = Some tok /\
                         status_remaining (clock w 0%nat) tok = Raise e).
Proof.
  assert (Hnone : cmd_auth_status w = (Ok tt, w) ->
                  token_file (snd (cmd_auth_status w)) = token_file w /\
                  (exists l, http_events (trace (snd (cmd_auth_status w)))
                             = (http_events (trace w) ++ l)%list /\
                             (List.length l <= 1)%nat) /\
                  (forall e, fst (cmd_auth_status w) = Raise e ->
                             exists tok, token_file w = Some tok /\
                                         status_remaining (clock w 0%nat) tok = Raise e)).
  { intros ->. cbn. split; [reflexivity|]. split; [|discriminate].
    exists []. rewrite app_nil_r. split; [reflexivity | cbn; lia]. }
  destruct (token_file w) as [tok|] eqn:Hfile;
    [|apply Hnone; unfold cmd_auth_status, bind, load_token; now rewrite Hfile].
  destruct (Py.truthy tok) eqn:Htruthy;
    [|apply Hnone; unfold cmd_auth_status, bind, load_token;
      now rewrite Hfile, Htruthy].
  clear Hnone. rewrite (cmd_auth_status_run tok w Hfile Htruthy).
  destruct (status_remaining (clock w 0%nat) tok) as [remaining|e] eqn:Hrem.
  - destruct (remaining <=? 0); cbn [fst snd].
    + split; [exact Hfile|]. split; [|discriminate].
      exists []. rewrite ticked_http_events, app_nil_r.
      split; [reflexivity | cbn; lia].
    + destruct (get_identity_world (BasecampAPI_init tok) (ticked w))
        as [-> | (rq & ->)].
      * split; [exact Hfile|]. split; [|discriminate].
        exists []. rewrite ticked_http_events, app_nil_r.
        split; [reflexivity | cbn; lia].
      * split; [rewrite <- Hfile; unfold sent, send;
                now destruct (net (ticked w) 0%nat)|].
        split; [|discriminate].
        exists [(rq, net w 0%nat)]. rewrite sent_trace. http_norm.
        rewrite ticked_http_events. split; [reflexivity | cbn; lia].
  - cbn [fst snd]. split; [exact Hfile|]. split.
    + exists []. rewrite ticked_http_events, app_nil_r.
      split; [reflexivity | cbn; lia].
    + intros e' [= <-]. exists tok. now split.
Qed.

(** ** Docks that are not lists of objects *)

Lemma scan_dock_not_object (tool : string) (before after : list json) (item : json) :
  Forall (fun it => dock_entry tool it false) before ->
  (forall d, item <> JObj d) ->
  scan_dock tool (before ++ item :: after) = Raise AttributeError.
Proof.
  intros Hbefore Hitem.
  induction Hbefore as [|it items (e & -> & Hno) _ IH]; cbn.
  - destruct item; try reflexivity. now contradiction (Hitem fields).
  - destruct (Dict.get "name" e) as [v|]; cbn.
    + now rewrite Hno.
    + exact IH.
Qed.

Section DockShapes.

Variables (api : BasecampAPI) (account_id project_id tok : json).
Hypothesis Hcred : has_access_token api tok.

Local Abbreviation project_rq := (project_request api account_id project_id tok).

(** An error of the dock scan comes out of each of the three lookups. *)
Lemma dock_lookups_raise (project : dict) (e : exn) (title content : string)
    (w : world) :
  project_of (net w 0%nat) project ->
  (forall tool, In tool ["todoset"; "chat"; "message_board"] ->
                find_in_dock tool (JObj project) = Raise e) ->
  get_todoset api account_id project_id w = (Raise e, sent project_rq w) /\
  get_campfire api account_id project_id w = (Raise e, sent project_rq w) /\
  post_message api account_id project_id title content w
  = (Raise e, sent project_rq w).
Proof.
  intros Hproject Hfind.
  unfold get_todoset, get_campfire, post_message, bind, lift.
  rewrite (get_project_ok api account_id project_id tok Hcred project w Hproject).
  now rewrite !Hfind by (cbn; auto).
Qed.

(** X17.  The not-found error is for docks that are lists of objects
    only.  A project whose [dock] is [null], a boolean or a number makes
    the three lookups raise [TypeError], and a dock entry that is not an
    object, met before any match, makes them raise [AttributeError]; in
    both cases after the project request alone. *)
Theorem malformed_dock_is_not_not_found (project : dict) (title content : string)
    (w : world) :
  project_of (net w 0%nat) project ->
  (forall v, Dict.get "dock" project = Some v ->
             v = JNull \/ (exists b, v = JBool b) \/ (exists z, v = JInt z) ->
             get_todoset api account_id project_id w
             = (Raise TypeError, sent project_rq w) /\
             get_campfire api account_id project_id w
             = (Raise TypeError, sent project_rq w) /\
             post_message api account_id project_id title content w
             = (Raise TypeError, sent project_rq w)) /\
  (forall before item after,
      Dict.get "dock" project = Some (JArr (before ++ item :: after)) ->
      Forall (fun it => forall tool, In tool ["todoset"; "chat"; "message_board"] ->
                                     dock_entry tool it false) before ->
      (forall d, item <> JObj d) ->
      get_todoset api account_id project_id w
      = (Raise AttributeError, sent project_rq w) /\
      get_campfire api account_id project_id w
      = (Raise AttributeError, sent project_rq w) /\
      post_message api account_id project_id title content w
      = (Raise AttributeError, sent project_rq w)).
Proof.
  intros Hproject. split.
  - intros v Hdock Hshape.
    apply (dock_lookups_raise project TypeError title content w Hproject).
    intros tool _. unfold find_in_dock. cbn. unfold Dict.mem. rewrite Hdock. cbn.
    destruct Hshape as [-> | [(b & ->) | (z & ->)]]; reflexivity.
  - intros before item after Hdock Hbefore Hitem.
    apply (dock_lookups_raise project AttributeError title content w Hproject).
    intros tool Htool. unfold find_in_dock. cbn. unfold Dict.mem.
    rewrite Hdock. cbn.
    apply scan_dock_not_object; [|exact Hitem].
    apply Forall_impl with (2 := Hbefore).
    intros it Hit. now apply Hit.
Qed.

End DockShapes.

(** * Concrete runs of the further properties *)

(** A 404 on the project request stops [get_todoset]. *)
Lemma first_failure_propagates_witness :
  exists rq,
    invoke 1 Sample.api (GetTodoset Sample.account_id Sample.project_id) Sample.refused
    = Some (Raise (HTTPError 404), sent rq Sample.refused).
Proof.
  destruct (first_failure_propagates Sample.api (JStr "abc")
              (GetTodoset Sample.account_id Sample.project_id) sample_cred)
    as (rq & _ & Hrun).
  exists rq.
  destruct (Hrun 0%nat Sample.refused) as (_ & Herr & _).
  exact (Herr (mkResponse 404 None None) eq_refl eq_refl).
Defined.

Lemma missing_access_token_is_key_error_witness :
  invoke 1 Sample.api_without_token (GetProjects Sample.account_id true)
         Sample.paged
  = Some (Raise (KeyError "access_token"), Sample.paged).
Proof.
  apply (missing_access_token_is_key_error Sample.api_without_token
           [("token_type", JStr "Bearer")]).
  - reflexivity.
  - discriminate.
  - reflexivity.
Defined.

(** The second page fails with status 500: the first page is lost. *)
Lemma get_projects_failure_drops_pages_witness :
  exists w',
    get_projects 5 Sample.api Sample.account_id true Sample.broken_paging
    = Some (Raise (HTTPError 500), w') /\
    http_events (trace w')
    = (http_events (trace Sample.broken_paging)
       ++ map (fun i => (page_request Sample.api Sample.account_id (JStr "abc")
                                      (1 + Z.of_nat i),
                         net Sample.broken_paging i))
              (seq 0 2))%list.
Proof.
  apply (get_projects_failure_drops_pages Sample.api Sample.account_id (JStr "abc")
           sample_cred [Sample.page1] (mkResponse 500 None None) 5
           Sample.broken_paging).
  - intros [|i] Hi; [|cbn in Hi; lia].
    split; [discriminate|].
    eexists. split; [reflexivity|]. split; [reflexivity|]. split; reflexivity.
  - reflexivity.
  - reflexivity.
  - cbn. lia.
Defined.

Lemma get_projects_never_stops_alone_witness :
  get_projects 50 Sample.api Sample.account_id true Sample.endless = None.
Proof.
  apply (get_projects_never_stops_alone Sample.api Sample.account_id (JStr "abc")
           sample_cred (fun _ => Sample.page1)).
  intros i. split; [discriminate|].
  eexists. split; [reflexivity|]. split; [reflexivity|]. split; reflexivity.
Defined.

Lemma sample_project_with_chat :
  project_of (net Sample.chatting 0%nat) Sample.project_with_chat.
Proof. eexists. split; [reflexivity|]. split; reflexivity. Defined.

Lemma sample_project :
  project_of (net Sample.posting 0%nat) Sample.project.
Proof. eexists. split; [reflexivity|]. split; reflexivity. Defined.

(** The message board entry has no id: nothing is posted. *)
Lemma post_message_needs_board_id_witness :
  post_message Sample.api Sample.account_id Sample.project_id "Hello" "World"
               Sample.chatting
  = (Raise (ValueError no_message_board_msg),
     sent (project_request Sample.api Sample.account_id Sample.project_id
                           (JStr "abc")) Sample.chatting).
Proof.
  apply (post_message_needs_board_id Sample.api Sample.account_id Sample.project_id
           (JStr "abc") sample_cred Sample.project_with_chat).
  - exact sample_project_with_chat.
  - right. exists [("name", JStr "message_board")]. split; [|reflexivity].
    exists [], [JObj Sample.chat_entry].
    split; [reflexivity|]. split; [constructor|].
    eexists. split; reflexivity.
Defined.

Lemma post_message_posts_to_board_witness :
  post_message Sample.api Sample.account_id Sample.project_id "Hello" "World"
               Sample.posting
  = (Ok Sample.created,
     sent (authed POST
             (bucket_url Sample.api Sample.account_id Sample.project_id
                         "/message_boards/" (JInt 41) "/messages.json")
             (JStr "abc")
             (JsonBody [("subject", JStr "Hello");
                        ("content", JStr "<div>World</div>")]))
          (sent (project_request Sample.api Sample.account_id Sample.project_id
                                 (JStr "abc")) Sample.posting)).
Proof.
  apply (post_message_posts_to_board Sample.api Sample.account_id Sample.project_id
           (JStr "abc") sample_cred Sample.project
           [("id", JInt 41); ("name", JStr "message_board")]).
  - exact sample_project.
  - exists [], [JObj Sample.todoset_entry].
    split; [reflexivity|]. split; [constructor|].
    eexists. split; reflexivity.
  - reflexivity.
  - eexists. split; [reflexivity|]. split; reflexivity.
Defined.

Lemma post_to_campfire_posts_to_chat_witness :
  post_to_campfire Sample.api Sample.account_id Sample.project_id "Done"
                   Sample.posting
  = (Raise (ValueError no_campfire_msg),
     sent (project_request Sample.api Sample.account_id Sample.project_id
                           (JStr "abc")) Sample.posting) /\
  post_to_campfire Sample.api Sample.account_id Sample.project_id "Done"
                   Sample.chatting
  = (Ok Sample.created,
     sent (authed POST
             (bucket_url Sample.api Sample.account_id Sample.project_id
                         "/chats/" (JInt 43) "/lines.json")
             (JStr "abc") (JsonBody [("content", JStr "Done")]))
          (sent (project_request Sample.api Sample.account_id Sample.project_id
                                 (JStr "abc")) Sample.chatting)).
Proof.
  destruct (post_to_campfire_posts_to_chat Sample.api Sample.account_id
              Sample.project_id (JStr "abc") sample_cred Sample.project "Done"
              Sample.posting sample_project) as [Hnone _].
  destruct (post_to_campfire_posts_to_chat Sample.api Sample.account_id
              Sample.project_id (JStr "abc") sample_cred Sample.project_with_chat
              "Done" Sample.chatting sample_project_with_chat) as [_ Hchat].
  split.
  - apply Hnone. right. eexists. split; [reflexivity|].
    repeat constructor; eexists; split; reflexivity.
  - apply (Hchat Sample.chat_entry Sample.created).
    + exists [JObj [("name", JStr "message_board")]], [].
      split; [reflexivity|]. split.
      * repeat constructor. eexists. split; reflexivity.
      * eexists. split; reflexivity.
    + eexists. split; [reflexivity|]. split; reflexivity.
Defined.

Lemma malformed_dock_is_not_not_found_witness :
  get_todoset Sample.api Sample.account_id Sample.project_id Sample.dockless
  = (Raise TypeError,
     sent (project_request Sample.api Sample.account_id Sample.project_id
                           (JStr "abc")) Sample.dockless).
Proof.
  assert (Hproject : project_of (net Sample.dockless 0%nat)
                                Sample.project_without_dock).
  { eexists. split; [reflexivity|]. split; reflexivity. }
  destruct (malformed_dock_is_not_not_found Sample.api Sample.account_id
              Sample.project_id (JStr "abc") sample_cred
              Sample.project_without_dock "t" "c" Sample.dockless Hproject)
    as [Hnull _].
  destruct (Hnull JNull eq_refl (or_introl eq_refl)) as [Htodoset _].
  exact Htodoset.
Defined.

(** The refresh answer brings [r-2], which replaces [r-1]. *)
Lemma refresh_takes_new_refresh_token_witness :
  exists w',
    refresh_token Sample.auth (JObj Sample.old_cred) Sample.rotating
    = (Ok (JObj (Dict.set "obtained_at" (JInt (clock Sample.rotating 0%nat))
                          Sample.rotated_cred)), w') /\
    token_file w'
    = Some (JObj (Dict.set "obtained_at" (JInt (clock Sample.rotating 0%nat))
                           Sample.rotated_cred)) /\
    Dict.get "refresh_token"
             (Dict.set "obtained_at" (JInt (clock Sample.rotating 0%nat))
                       Sample.rotated_cred)
    = Some (JStr "r-2") /\
    http_events (trace w')
    = (http_events (trace Sample.rotating)
       ++ [(refresh_request Sample.auth (JStr "r-1"), net Sample.rotating 0%nat)])%list.
Proof.
  apply (refresh_takes_new_refresh_token Sample.auth Sample.old_cred
           Sample.rotated_cred (JStr "r-1") (JStr "r-2") Sample.rotating).
  - reflexivity.
  - eexists. split; [reflexivity|]. split; reflexivity.
  - reflexivity.
  - reflexivity.
Defined.


(** The refresh of the stale credential: the file holds what is
    returned.  The same refresh with a write that fails inside the dump:
    [None] is returned and the stored credential is gone. *)
Lemma get_valid_token_keeps_file_in_step_witness :
  (exists tok,
      get_valid_token Sample.auth Sample.stale
      = (Ok tok, snd (get_valid_token Sample.auth Sample.stale)) /\
      Py.truthy tok = true /\
      token_file (snd (get_valid_token Sample.auth Sample.stale)) = Some tok) /\
  get_valid_token Sample.auth (Sample.failing_disk AtWrite Sample.stale)
  = (Ok JNull,
     snd (get_valid_token Sample.auth (Sample.failing_disk AtWrite Sample.stale))) /\
  token_file
    (snd (get_valid_token Sample.auth (Sample.failing_disk AtWrite Sample.stale)))
  = None /\
  stamped_write_failed
    (ticked (Sample.failing_disk AtWrite Sample.stale))
    (snd (get_valid_token Sample.auth (Sample.failing_disk AtWrite Sample.stale))).
Proof.
  split; [|split; [reflexivity|split; [reflexivity|]]].
  - destruct (get_valid_token_keeps_file_in_step Sample.auth Sample.stale
                (fst (get_valid_token Sample.auth Sample.stale))
                (snd (get_valid_token Sample.auth Sample.stale)) eq_refl)
      as (Hfile & _ & _).
    eexists. split; [reflexivity|]. split; [reflexivity | exact Hfile].
  - destruct (get_valid_token_keeps_file_in_step Sample.auth
                (Sample.failing_disk AtWrite Sample.stale)
                (fst (get_valid_token Sample.auth
                                      (Sample.failing_disk AtWrite Sample.stale)))
                (snd (get_valid_token Sample.auth
                                      (Sample.failing_disk AtWrite Sample.stale)))
                eq_refl)
      as (Hfile & _ & _).
    change (token_file
              (snd (get_valid_token Sample.auth
                                    (Sample.failing_disk AtWrite Sample.stale)))
            = token_file (Sample.failing_disk AtWrite Sample.stale) \/
            stamped_write_failed
              (ticked (Sample.failing_disk AtWrite Sample.stale))
              (snd (get_valid_token Sample.auth
                                    (Sample.failing_disk AtWrite Sample.stale))))
      in Hfile.
    destruct Hfile as [Hsame | Hfailed]; [|exact Hfailed].
    exfalso. revert Hsame. vm_compute. discriminate.
Defined.

(** One second after the login the credential is returned as it is. *)
Lemma fresh_login_is_not_refreshed_witness :
  get_valid_token Sample.auth (snd (login Sample.auth Sample.at_prompt))
  = (Ok (JObj (Dict.set "obtained_at" (JInt Sample.now) Sample.new_cred)),
     ticked (snd (login Sample.auth Sample.at_prompt))).
Proof.
  apply (fresh_login_is_not_refreshed Sample.auth Sample.at_prompt
           (JObj (Dict.set "obtained_at" (JInt Sample.now) Sample.new_cred))
           (snd (login Sample.auth Sample.at_prompt)) 1209600).
  - reflexivity.
  - reflexivity.
  - cbn. lia.
Defined.

(** A line of blanks: no code, no request. *)
Lemma login_without_code_witness :
  login Sample.auth Sample.empty_line
  = (Raise (ValueError no_code_msg), prompted Sample.auth Sample.empty_line) /\
  http_events (trace (prompted Sample.auth Sample.empty_line)) = [].
Proof.
  destruct (login_without_code Sample.auth Sample.empty_line)
    as (_ & Hblank & _ & Hquiet).
  split; [|exact Hquiet].
  apply (Hblank "   "); [reflexivity | now left].
Defined.


Lemma ensure_auth_gives_credential_witness :
  Py.truthy (JObj (Dict.set "obtained_at" (JInt Sample.now) Sample.new_cred)) = true /\
  token_data (BasecampAPI_init
                (JObj (Dict.set "obtained_at" (JInt Sample.now) Sample.new_cred)))
  = JObj (Dict.set "obtained_at" (JInt Sample.now) Sample.new_cred) /\
  token_file (snd (ensure_auth Sample.auth Sample.at_prompt))
  = Some (JObj (Dict.set "obtained_at" (JInt Sample.now) Sample.new_cred)).
Proof.
  apply (ensure_auth_gives_credential Sample.auth Sample.at_prompt).
  reflexivity.
Defined.

(** With 200 seconds left the status command asks for the identity with
    the stored token, which [get_valid_token] counts as stale. *)
Lemma status_and_refresh_thresholds_witness :
  token_expired (clock Sample.stale 0%nat) (JObj Sample.old_cred) = Ok (200 <? 300) /\
  cmd_auth_status Sample.stale
  = (Ok tt, sent (identity_request (JStr "abc")) (ticked Sample.stale)).
Proof.
  destruct (status_and_refresh_thresholds (JObj Sample.old_cred) (JStr "abc") 200
              Sample.stale eq_refl (conj eq_refl eq_refl) eq_refl)
    as (Hexpired & _ & Huse).
  split; [exact Hexpired|]. apply Huse. lia.
Defined.

(** On the token file edited by hand the status command raises the
    [TypeError] of its arithmetic. *)
Lemma cmd_auth_status_only_looks_witness :
  exists tok, token_file Sample.edited = Some tok /\
              status_remaining (clock Sample.edited 0%nat) tok = Raise TypeError.
Proof.
  destruct (cmd_auth_status_only_looks Sample.edited) as (_ & _ & Honly).
  apply Honly. reflexivity.
Defined.
